(** * Cafe menu generator (generate_menu.py): a shallow embedding

    The program reads one JSON record (cafe metadata and an ordered list of
    categories with their items) and renders a static right-to-left HTML
    page.  This file embeds the text helpers ([to_persian_digits], [is_url],
    [norm_text], [fmt_price]) and the renderer [render_html], then proves
    properties of them.

    Modelling choices.
    - A Python [str] is a sequence of Unicode code points: [pystr := list N].
    - String literals of the source are written [u "..."]: the UTF-8 text
      of the literal is decoded to code points.  A double quote of the
      source is written as a backquote in these literals (the source
      contains no backquote).
    - An f-string is the list of its literal segments and interpolated
      values, joined by [fstr].
    - [datetime.now().strftime(...)] reads the clock: its result is the
      extra argument [generated_at] of [render_html]. *)

From Stdlib Require Import List NArith ZArith String Ascii Bool Lia DecimalPos.
From Stdlib Require DecimalZ.
Import ListNotations.

Local Open Scope N_scope.
Local Open Scope list_scope.

(** ** Python strings *)

Definition pystr := list N.

(** UTF-8 decoding, used only to read the literals of this file. *)
Fixpoint utf8_decode (bs : list N) : pystr :=
  match bs with
  | [] => []
  | b :: r =>
      if b <? 128 then b :: utf8_decode r
      else if b <? 224 then
        match r with
        | c1 :: r' => ((b - 192) * 64 + (c1 - 128)) :: utf8_decode r'
        | _ => []
        end
      else if b <? 240 then
        match r with
        | c1 :: c2 :: r' =>
            ((b - 224) * 4096 + (c1 - 128) * 64 + (c2 - 128)) :: utf8_decode r'
        | _ => []
        end
      else
        match r with
        | c1 :: c2 :: c3 :: r' =>
            ((b - 240) * 262144 + (c1 - 128) * 4096 + (c2 - 128) * 64 + (c3 - 128))
              :: utf8_decode r'
        | _ => []
        end
  end.

Definition bytes_of (s : string) : list N :=
  map N_of_ascii (list_ascii_of_string s).

(** A literal of the source; the backquote stands for the double quote. *)
Definition u (s : string) : pystr :=
  map (fun c => if c =? 96 then 34 else c) (utf8_decode (bytes_of s)).
Arguments u s%_string.

Definition ch (a : ascii) : N := N_of_ascii a.
Arguments ch a%_char.

Fixpoint eqb_str (a b : pystr) : bool :=
  match a, b with
  | [], [] => true
  | x :: a', y :: b' => (x =? y) && eqb_str a' b'
  | _, _ => false
  end.

(** Truth value of a string: [bool(s)], as in [if s] and [not s]. *)
Definition truthy (s : pystr) : bool :=
  match s with [] => false | _ => true end.

(** [a or b] on strings. *)
Definition por (a b : pystr) : pystr := if truthy a then a else b.

(** f-strings: literal segments and interpolated values. *)
Inductive part : Type :=
| Lit (s : pystr)
| Val (v : pystr).

Definition part_text (p : part) : pystr :=
  match p with Lit s => s | Val v => v end.

Definition fstr (ps : list part) : pystr := flat_map part_text ps.

(** [sep.join(l)] *)
Fixpoint join (sep : pystr) (l : list pystr) : pystr :=
  match l with
  | [] => []
  | [x] => x
  | x :: r => x ++ sep ++ join sep r
  end.

(** [str.isspace] on one code point (the whitespace set of [str.strip]). *)
Definition is_space (c : N) : bool :=
  ((9 <=? c) && (c <=? 13)) || ((28 <=? c) && (c <=? 32))
  || (c =? 133) || (c =? 160) || (c =? 5760)
  || ((8192 <=? c) && (c <=? 8202))
  || (c =? 8232) || (c =? 8233) || (c =? 8239) || (c =? 8287) || (c =? 12288).

Fixpoint lstrip (s : pystr) : pystr :=
  match s with
  | [] => []
  | c :: r => if is_space c then lstrip r else s
  end.

Fixpoint rstrip (s : pystr) : pystr :=
  match s with
  | [] => []
  | c :: r =>
      match rstrip r with
      | [] => if is_space c then [] else [c]
      | r' => c :: r'
      end
  end.

(** [s.strip()] *)
Definition strip (s : pystr) : pystr := rstrip (lstrip s).

(** [s.replace(old, new)] for a one-character [old]. *)
Definition replace (old : N) (new : pystr) (s : pystr) : pystr :=
  flat_map (fun c => if c =? old then new else [c]) s.

(** [html.escape(s)] with its default [quote=True]: the five replacements
    of the standard library, [&] first. *)
Definition escape (s : pystr) : pystr :=
  let s := replace (ch "&") (u "&amp;") s in
  let s := replace (ch "<") (u "&lt;") s in
  let s := replace (ch ">") (u "&gt;") s in
  let s := replace 34 (u "&quot;") s in
  let s := replace (ch "'") (u "&#x27;") s in
  s.

(** [str(n)] for an integer. *)
Fixpoint uint_text (d : Decimal.uint) : pystr :=
  match d with
  | Decimal.Nil => []
  | Decimal.D0 d => 48 :: uint_text d
  | Decimal.D1 d => 49 :: uint_text d
  | Decimal.D2 d => 50 :: uint_text d
  | Decimal.D3 d => 51 :: uint_text d
  | Decimal.D4 d => 52 :: uint_text d
  | Decimal.D5 d => 53 :: uint_text d
  | Decimal.D6 d => 54 :: uint_text d
  | Decimal.D7 d => 55 :: uint_text d
  | Decimal.D8 d => 56 :: uint_text d
  | Decimal.D9 d => 57 :: uint_text d
  end.

Definition str_int (z : Z) : pystr :=
  match Z.to_int z with
  | Decimal.Pos d => uint_text d
  | Decimal.Neg d => ch "-" :: uint_text d
  end.

(** ** Values read from the JSON input

    A field of the input holds any JSON value.  The program only ever
    takes [str(x)] of it (after the [None] test of [norm_text]), so a
    value that is neither null, a string, an integer nor a boolean (a
    float, a list, an object) is given by the text [str] returns for it. *)
Inductive value : Type :=
| VNone
| VStr (s : pystr)
| VInt (z : Z)
| VBool (b : bool)
| VOther (text : pystr).

Definition str (x : value) : pystr :=
  match x with
  | VNone => u "None"
  | VStr s => s
  | VInt z => str_int z
  | VBool true => u "True"
  | VBool false => u "False"
  | VOther t => t
  end.

(** [d.get(key, default)]: the field is [None] when the key is absent. *)
Definition get {A : Type} (field : option A) (default : A) : A :=
  match field with Some v => v | None => default end.

(** ** The text helpers *)

(** [str.maketrans("0123456789", "۰۱۲۳۴۵۶۷۸۹")] *)
Definition PERSIAN_DIGITS : list (N * N) :=
  combine (u "0123456789") (u "۰۱۲۳۴۵۶۷۸۹").

Fixpoint table_get (t : list (N * N)) (c : N) : option N :=
  match t with
  | [] => None
  | (k, v) :: t' => if c =? k then Some v else table_get t' c
  end.

(** [s.translate(table)] *)
Definition translate (t : list (N * N)) (s : pystr) : pystr :=
  map (fun c => match table_get t c with Some d => d | None => c end) s.

Definition to_persian_digits (s : pystr) : pystr :=
  translate PERSIAN_DIGITS s.

(** One literal letter of a pattern under [re.I]: the letter, its upper
    case, and for [s] also the long s (U+017F), which the regex engine
    treats as a case variant of [s]. *)
Definition re_letter_i (p c : N) : bool :=
  (c =? p) || (c =? p - 32) || ((p =? ch "s") && (c =? 383)).

Fixpoint starts_with (pre s : pystr) : bool :=
  match pre, s with
  | [], _ => true
  | x :: pre', y :: s' => (x =? y) && starts_with pre' s'
  | _ :: _, [] => false
  end.

(** [re.match(r"^https?://", s, flags=re.I)] *)
Definition url_re (s : pystr) : bool :=
  match s with
  | c1 :: c2 :: c3 :: c4 :: r =>
      re_letter_i (ch "h") c1 && re_letter_i (ch "t") c2
      && re_letter_i (ch "t") c3 && re_letter_i (ch "p") c4
      && (match r with
          | c5 :: r' => re_letter_i (ch "s") c5 && starts_with (u "://") r'
          | [] => false
          end
          || starts_with (u "://") r)
  | _ => false
  end.

Definition is_url (s : pystr) : bool := url_re (strip s).

Definition norm_text (x : value) : pystr :=
  match x with
  | VNone => []
  | _ => strip (str x)
  end.

(** The character class [[0-9۰-۹,]]. *)
Definition price_class (c : N) : bool :=
  ((48 <=? c) && (c <=? 57)) || ((1776 <=? c) && (c <=? 1785)) || (c =? 44).

Fixpoint skip_class (s : pystr) : pystr :=
  match s with
  | [] => []
  | c :: r => if price_class c then skip_class r else s
  end.

(** [re.match(r"^[0-9۰-۹,]+$", s)]: at least one character of the class,
    up to the end of the string or to a single final newline (the meaning
    of [$] without [re.M]). *)
Definition price_re (s : pystr) : bool :=
  match s with
  | [] => false
  | c :: _ =>
      price_class c
      && match skip_class s with
         | [] => true
         | [10] => true
         | _ => false
         end
  end.

Definition fmt_price (price : value) (currency : pystr)
    (use_persian_digits : bool) : pystr :=
  let p := norm_text price in
  if negb (truthy p) || eqb_str p (u "-") then u "-"
  else
    let out := p in
    let out :=
      if price_re p then strip (fstr [Val p; Lit (u " "); Val currency])
      else out in
    let out := if use_persian_digits then to_persian_digits out else out in
    out.

(** ** The input record

    The JSON document has the shape the program reads: a [cafe] object,
    a [menu] list of category objects, each with an [items] list of item
    objects.  A field is [None] when its key is absent, so that
    [d.get(key, default)] is [get field default]. *)

Module Item.
Record t : Type := mk {
  name : option value;
  desc : option value;
  price : option value;
  img : option value;
  icon : option value
}.
End Item.

Module Cat.
Record t : Type := mk {
  title : option value;
  hint : option value;
  items : option (list Item.t)
}.
End Cat.

Module Cafe.
Record t : Type := mk {
  name : option value;
  subtitle : option value;
  address : option value;
  phone : option value;
  instagram : option value;
  telegram : option value;
  whatsapp : option value;
  maps : option value;
  currency : option value
}.
(** The empty object [{}]. *)
Definition empty : t := mk None None None None None None None None None.
End Cafe.

Module Data.
Record t : Type := mk {
  cafe : option Cafe.t;
  menu : option (list Cat.t)
}.
End Data.

(** [enumerate(l, start)] *)
Fixpoint enumerate {A : Type} (start : Z) (l : list A) : list (Z * A) :=
  match l with
  | [] => []
  | x :: r => (start, x) :: enumerate (start + 1)%Z r
  end.

(** ** The templates of [render_html]

    Each f-string of the source, as a function of the variables it
    interpolates. *)

(** The newline of ["\n".join(...)]. *)
Definition NL : pystr := [10].

(** The unnamed string constants that reach the page unescaped. *)
Definition NO_NAME : pystr := u "بدون نام".
Definition NO_ADDRESS : pystr := u "آدرس را در ورودی وارد کنید".
Definition NO_PHONE_ROW : pystr := u "<div class=`row`>تلفن را در ورودی وارد کنید.</div>".
Definition EMPTY_GRID : pystr :=
  u "<div class=`item`><div class=`meta`><div class=`desc`>فعلاً آیتمی ثبت نشده.</div></div></div>".

Definition link_row (label val txt : pystr) : list part :=
  [Lit (u "<div class=`row`><b>"); Val (escape label); Lit (u ":</b> <a href=`");
   Val (escape val); Lit (u "` target=`_blank` rel=`noopener`>"); Val txt;
   Lit (u "</a></div>")].

Definition text_row (label txt : pystr) : list part :=
  [Lit (u "<div class=`row`><b>"); Val (escape label); Lit (u ":</b> "); Val txt; Lit (u "</div>")].

Definition default_title (idx : Z) : list part :=
  [Lit (u "دسته "); Val (str_int idx)].

Definition anchor_of (idx : Z) : list part :=
  [Lit (u "cat-"); Val (str_int idx)].

Definition pill (anchor title : pystr) : list part :=
  [Lit (u "<a class=`pill` href=`#"); Val anchor; Lit (u "`><strong>"); Val (escape title);
   Lit (u "</strong></a>")].

Definition thumb_img (img name : pystr) : list part :=
  [Lit (u "<div class=`thumb`><img src=`"); Val (escape img); Lit (u "` alt=`"); Val name;
   Lit (u "`></div>")].

Definition thumb_icon (icon : pystr) : list part :=
  [Lit (u "<div class=`thumb`>"); Val icon; Lit (u "</div>")].

Definition desc_div (desc : pystr) : list part :=
  [Lit (u "<div class=`desc`>"); Val desc; Lit (u "</div>")].

Definition card (thumb name price_html desc_html : pystr) : list part :=
  [Lit (u "
                <div class=`item`>
                  ");
   Val thumb;
   Lit (u "
                  <div class=`meta`>
                    <div class=`name`>
                      <h4>");
   Val name;
   Lit (u "</h4>
                      <div class=`price`>");
   Val price_html;
   Lit (u "</div>
                    </div>
                    ");
   Val desc_html;
   Lit (u "
                  </div>
                </div>
                ")].

Definition section (anchor title hint grid : pystr) : list part :=
  [Lit (u "
            <section class=`section` id=`");
   Val anchor;
   Lit (u "`>
              <div class=`section-title`>
                <h2>");
   Val title;
   Lit (u "</h2>
                <div class=`hint`>");
   Val hint;
   Lit (u "</div>
              </div>
              <div class=`grid`>
                ");
   Val grid;
   Lit (u "
              </div>
            </section>
            ")].

Definition phone_row (phone_disp : pystr) : list part :=
  [Lit (u "<div class=`row`><b>تلفن:</b> "); Val (escape phone_disp); Lit (u "</div>")].

(** [link_or_text], the local function of [render_html]. *)
Definition link_or_text (label val : pystr) : pystr :=
  if negb (truthy val) then []
  else
    let txt := escape val in
    if is_url val then fstr (link_row label val txt)
    else fstr (text_row label txt).

Definition page (page_title cafe_name address subtitle cat_pills_html phone
    phone_disp instagram telegram whatsapp maps currency sections
    generated_at : pystr) : list part :=
  [Lit (u "<!doctype html>
<html lang=`fa` dir=`rtl`>
<head>
  <meta charset=`utf-8` />
  <meta name=`viewport` content=`width=device-width,initial-scale=1` />
  <meta name=`color-scheme` content=`dark` />
  <title>");
   Val (escape page_title);
   Lit (u " | ");
   Val cafe_name;
   Lit (u "</title>

  <!-- Persian font -->
  <link rel=`preconnect` href=`https://fonts.googleapis.com`>
  <link rel=`preconnect` href=`https://fonts.gstatic.com` crossorigin>
  <link href=`https://fonts.googleapis.com/css2?family=Vazirmatn:wght@300;400;600;700&display=swap` rel=`stylesheet`>

  <link rel=`stylesheet` href=`style.css` />
</head>

<body>
  <div class=`container`>
    <div class=`topbar`>
      <div class=`badge`>📍 <span>");
   Val (if truthy address then escape address else NO_ADDRESS);
   Lit (u "</span></div>
      <a class=`badge` href=`#cat-1`>🧾 <span>");
   Val (escape page_title);
   Lit (u "</span></a>
    </div>

    <div class=`brand`>
      <h1>");
   Val cafe_name;
   Lit (u "</h1>
      <div class=`subtitle`>");
   Val subtitle;
   Lit (u "</div>
    </div>

    <div class=`hero`>
      <div class=`hero-inner`>
        <div>
          <div class=`pill`>دسته‌ها</div>
          <div style=`height:10px`></div>
          <div style=`display:flex;flex-wrap:wrap;gap:10px`>
            ");
   Val cat_pills_html;
   Lit (u "
          </div>
        </div>

        <div class=`info`>
          <h3>اطلاعات تماس</h3>
          ");
   Val (if truthy phone then fstr (phone_row phone_disp) else NO_PHONE_ROW);
   Lit (u "
          ");
   Val (link_or_text (u "اینستاگرام") instagram);
   Lit (u "
          ");
   Val (link_or_text (u "تلگرام") telegram);
   Lit (u "
          ");
   Val (link_or_text (u "واتس‌اپ") whatsapp);
   Lit (u "
          ");
   Val (link_or_text (u "نقشه") maps);
   Lit (u "
        </div>
      </div>

      <div class=`quicklinks`>
        <span class=`pill`>واحد قیمت: <strong>");
   Val (escape currency);
   Lit (u "</strong></span>
        <span class=`pill`>نمایش: <strong>RTL</strong></span>
      </div>
    </div>

    ");
   Val sections;
   Lit (u "

    <div class=`footer`>
      ساخته‌شده با ژنراتور پایتون • ");
   Val (escape generated_at);
   Lit (u "
    </div>
  </div>
</body>
</html>
")].

(** ** The renderer *)

(** The body of the first loop: one quick-navigation pill. *)
Definition render_pill (idx : Z) (cat : Cat.t) : pystr :=
  let title := norm_text (get (Cat.title cat) (VStr (fstr (default_title idx)))) in
  let anchor := fstr (anchor_of idx) in
  fstr (pill anchor title).

(** The body of the inner loop: one item card. *)
Definition render_card (currency : pystr) (use_persian_digits : bool)
    (it : Item.t) : pystr :=
  let name := por (escape (norm_text (get (Item.name it) (VStr [])))) NO_NAME in
  let desc := escape (norm_text (get (Item.desc it) (VStr []))) in
  let price := fmt_price (get (Item.price it) (VStr [])) currency use_persian_digits in
  let price_html := escape price in
  let img := norm_text (get (Item.img it) (VStr [])) in
  let thumb :=
    if truthy img && is_url img then fstr (thumb_img img name)
    else
      let icon := escape (norm_text (get (Item.icon it) (VStr (u "☕")))) in
      fstr (thumb_icon icon) in
  let desc_html := if truthy desc then fstr (desc_div desc) else [] in
  strip (fstr (card thumb name price_html desc_html)).

Definition render_cards (currency : pystr) (use_persian_digits : bool)
    (items : list Item.t) : list pystr :=
  map (render_card currency use_persian_digits) items.

(** [grid = "\n".join(cards) if cards else '<div class="item">...'] *)
Definition render_grid (cards : list pystr) : pystr :=
  match cards with
  | [] => EMPTY_GRID
  | _ => join NL cards
  end.

(** The body of the second loop: one category section. *)
Definition render_section (currency : pystr) (use_persian_digits : bool)
    (idx : Z) (cat : Cat.t) : pystr :=
  let title := escape (norm_text (get (Cat.title cat) (VStr (fstr (default_title idx))))) in
  let hint := escape (norm_text (get (Cat.hint cat) (VStr []))) in
  let anchor := fstr (anchor_of idx) in
  let items := get (Cat.items cat) [] in
  let cards := render_cards currency use_persian_digits items in
  let grid := render_grid cards in
  strip (fstr (section anchor title hint grid)).

(** The first loop: the list [cat_pills]. *)
Definition cat_pills (menu : list Cat.t) : list pystr :=
  map (fun ic => render_pill (fst ic) (snd ic)) (enumerate 1 menu).

(** The second loop: the list [sections_html]. *)
Definition sections_html (currency : pystr) (use_persian_digits : bool)
    (menu : list Cat.t) : list pystr :=
  map (fun ic => render_section currency use_persian_digits (fst ic) (snd ic))
      (enumerate 1 menu).

(** [currency = norm_text(cafe.get("currency", ...)) or ...] *)
Definition currency_of (cafe : Cafe.t) : pystr :=
  por (norm_text (get (Cafe.currency cafe) (VStr (u "هزار تومان"))))
      (u "هزار تومان").

Definition render_html (data : Data.t) (page_title : pystr)
    (use_persian_digits : bool) (generated_at : pystr) : pystr :=
  let cafe := get (Data.cafe data) Cafe.empty in
  let menu := get (Data.menu data) [] in
  let cafe_name := escape (norm_text (get (Cafe.name cafe) (VStr (u "کافه")))) in
  let subtitle := escape (norm_text (get (Cafe.subtitle cafe) (VStr []))) in
  let address := escape (norm_text (get (Cafe.address cafe) (VStr []))) in
  let phone := escape (norm_text (get (Cafe.phone cafe) (VStr []))) in
  let instagram := norm_text (get (Cafe.instagram cafe) (VStr [])) in
  let telegram := norm_text (get (Cafe.telegram cafe) (VStr [])) in
  let whatsapp := norm_text (get (Cafe.whatsapp cafe) (VStr [])) in
  let maps := norm_text (get (Cafe.maps cafe) (VStr [])) in
  let currency := currency_of cafe in
  let cat_pills_html := join NL (cat_pills menu) in
  let sections := join (NL ++ NL) (sections_html currency use_persian_digits menu) in
  let phone_disp :=
    if use_persian_digits && truthy phone then to_persian_digits phone else phone in
  fstr (page page_title cafe_name address subtitle cat_pills_html phone
          phone_disp instagram telegram whatsapp maps currency sections
          generated_at).

(** ** Notions used in the statements *)

Definition is_digit (c : N) : bool := (48 <=? c) && (c <=? 57).

Definition persian_digit (c : N) : N :=
  match table_get PERSIAN_DIGITS c with Some d => d | None => c end.

(** The digit conversion of the last step of [fmt_price]. *)
Definition digits_if (flag : bool) (s : pystr) : pystr :=
  if flag then to_persian_digits s else s.


(** What [escape] does to one character. *)
Definition escape_char (c : N) : pystr :=
  if c =? ch "&" then u "&amp;"
  else if c =? ch "<" then u "&lt;"
  else if c =? ch ">" then u "&gt;"
  else if c =? 34 then u "&quot;"
  else if c =? ch "'" then u "&#x27;"
  else [c].

(** The characters that open or close markup: [<], [>], the double and
    the single quote. *)
Definition markup_char (c : N) : bool :=
  (c =? ch "<") || (c =? ch ">") || (c =? 34) || (c =? ch "'").

(** The five character references [escape] produces. *)
Definition reference_tail (s : pystr) : bool :=
  starts_with (u "amp;") s || starts_with (u "lt;") s || starts_with (u "gt;") s
  || starts_with (u "quot;") s || starts_with (u "#x27;") s.

(** Text without markup: no markup character, and every [&] opens one of
    the five character references. *)
Fixpoint escaped_text (s : pystr) : bool :=
  match s with
  | [] => true
  | c :: r =>
      negb (markup_char c)
      && (if c =? ch "&" then reference_tail r else true)
      && escaped_text r
  end.

(** A text without [&], [<], [>] and quotes is its own escaped form. *)
Definition plain_char (c : N) : bool := negb (markup_char c || (c =? ch "&")).

(** The number of positions of [s] where [pat] starts. *)
Fixpoint count (pat s : pystr) : nat :=
  match s with
  | [] => O
  | _ :: r => ((if starts_with pat s then 1 else 0) + count pat r)%nat
  end.

Definition occurs (pat s : pystr) : bool := negb (Nat.eqb (count pat s) O).

(** An anchor keeps the referrer from the target when it carries
    [rel=noreferrer] or a [referrerpolicy] attribute. *)
Definition withholds_referrer (html : pystr) : bool :=
  occurs (u "noreferrer") html || occurs (u "referrerpolicy") html.

Definition literals_of (ps : list part) : list pystr :=
  flat_map (fun p => match p with Lit s => [s] | Val _ => [] end) ps.

(** Every literal text of the program that reaches the page unescaped:
    the literal segments of the templates (those of the two stripped
    templates also in their trimmed forms), the separator of [join] and
    the four unnamed constants. *)
Definition TEMPLATE_LITERALS : list pystr :=
  let stripped :=
    literals_of (card [] [] [] []) ++ literals_of (section [] [] [] []) in
  [NL; NO_NAME; NO_ADDRESS; NO_PHONE_ROW; EMPTY_GRID]
  ++ literals_of (link_row [] [] []) ++ literals_of (text_row [] [])
  ++ literals_of (anchor_of 0) ++ literals_of (pill [] [])
  ++ literals_of (thumb_img [] []) ++ literals_of (thumb_icon [])
  ++ literals_of (desc_div []) ++ literals_of (phone_row [])
  ++ literals_of (page [] [] [] [] [] [] [] [] [] [] [] [] [] [])
  ++ stripped ++ map lstrip stripped ++ map rstrip stripped.

(** A text is [templated] when it is put together from template
    literals, escaped texts and decimal numbers, and from nothing else. *)
Inductive templated : pystr -> Prop :=
| templated_nil : templated []
| templated_lit (l : pystr) : In l TEMPLATE_LITERALS -> templated l
| templated_text (r : pystr) : templated (escape r)
| templated_int (z : Z) : templated (str_int z)
| templated_app (a b : pystr) : templated a -> templated b -> templated (a ++ b).

(** What may follow a [<] in the templates: the names of their tags, a
    closing tag, the doctype and the comment. *)
Definition TEMPLATE_TAGS : list pystr :=
  [u "!doctype "; u "!-- "; u "/"; u "a "; u "b>"; u "body>"; u "div "; u "div>";
   u "h1>"; u "h2>"; u "h3>"; u "h4>"; u "head>"; u "html "; u "img "; u "link ";
   u "meta "; u "section "; u "span "; u "span>"; u "strong>"; u "title>"].

(** Every [<] of the text opens one of the tags of the templates. *)
Fixpoint template_tags_only (t : pystr) : bool :=
  match t with
  | [] => true
  | c :: r =>
      (if c =? ch "<" then existsb (fun p => starts_with p r) TEMPLATE_TAGS else true)
      && template_tags_only r
  end.

Definition lit_ok (l : pystr) : bool := existsb (eqb_str l) TEMPLATE_LITERALS.

Inductive part_ok : part -> Prop :=
| ok_lit (l : pystr) : lit_ok l = true -> part_ok (Lit l)
| ok_val (v : pystr) : templated v -> part_ok (Val v).

Definition int_char (c : N) : bool := is_digit c || (c =? ch "-").

(** The parts of a stripped template: the first literal trimmed on the
    left, the last one on the right. *)
Fixpoint trim_last (ps : list part) : list part :=
  match ps with
  | [] => []
  | [Lit t] => [Lit (rstrip t)]
  | p :: r => p :: trim_last r
  end.

Definition trim_ends (ps : list part) : list part :=
  match ps with
  | Lit h :: r => Lit (lstrip h) :: trim_last r
  | _ => ps
  end.

(** C6, as stated: the anchor of the category at position [idx] is
    [category-idx]. *)
Definition spec_anchor (idx : Z) : pystr := u "category-" ++ str_int idx.

Definition one_category : Data.t :=
  Data.mk None (Some [Cat.mk (Some (VStr (u "Hot"))) None None]).

(** The opening tag of a card, of an item and of the placeholder alike. *)
Definition CARD_OPEN : pystr := u "<div class=`item`>".

(** The ASCII letters in upper case; other characters are kept. *)
Definition ascii_upper (c : N) : N :=
  if (97 <=? c) && (c <=? 122) then c - 32 else c.

(** A text that neither starts nor ends with whitespace. *)
Definition stripped (s : pystr) : Prop := strip s = s.

(** The opening of an image element and of a description. *)
Definition IMG_OPEN : pystr := u "<img".
Definition DESC_OPEN : pystr := u "<div class=`desc`>".

(** The values [render_card] computes for an item: the name shown, the
    thumbnail, the description block and the price text. *)
Definition card_name (it : Item.t) : pystr :=
  por (escape (norm_text (get (Item.name it) (VStr [])))) NO_NAME.

Definition has_image (it : Item.t) : bool :=
  let img := norm_text (get (Item.img it) (VStr [])) in
  truthy img && is_url img.

Definition card_thumb (it : Item.t) : pystr :=
  if has_image it
  then fstr (thumb_img (norm_text (get (Item.img it) (VStr []))) (card_name it))
  else fstr (thumb_icon (escape (norm_text (get (Item.icon it) (VStr (u "☕")))))).

Definition has_desc (it : Item.t) : bool :=
  truthy (norm_text (get (Item.desc it) (VStr []))).

Definition card_desc_html (it : Item.t) : pystr :=
  if has_desc it
  then fstr (desc_div (escape (norm_text (get (Item.desc it) (VStr [])))))
  else [].

Definition card_price_html (currency : pystr) (flag : bool) (it : Item.t) : pystr :=
  escape (fmt_price (get (Item.price it) (VStr [])) currency flag).

(** The opening of a section element and of a quick-navigation pill. *)
Definition SECTION_OPEN : pystr := u "<section ".
Definition PILL_OPEN : pystr := u "<a class=`pill`".




(** The largest number of digits [str] prints for an integer under every
    setting of the interpreter; for a longer integer it can raise
    [ValueError], which [str_int] does not model. *)
Definition INT_STR_DIGITS : Z := 640.

(** * Properties *)

(** Closed facts are decided by evaluation, one conjunct at a time. *)
Ltac by_computation :=
  cbv zeta; repeat match goal with |- _ /\ _ => split end;
  vm_compute; reflexivity.

Example decode_samples :
  u "a`۰☕📍" = [97; 34; 1776; 9749; 128205].
Proof. reflexivity. Qed.

Example fmt_price_samples :
  fmt_price (VInt 120000) (u "K") false = u "120000 K"
  /\ fmt_price (VInt 120000) (u "K") true = u "۱۲۰۰۰۰ K"
  /\ fmt_price (VStr (u " ۱۲۰ ")) (u "K") false = u "۱۲۰ K"
  /\ fmt_price (VStr (u "free")) (u "K") true = u "free"
  /\ fmt_price (VInt 120000) [] false = u "120000"
  /\ fmt_price VNone (u "K") true = u "-".
Proof. by_computation. Qed.

Example render_card_sample :
  render_card (u "K") true
    (Item.mk (Some (VStr (u "Latte <b>&"))) (Some (VStr (u "milk")))
       (Some (VInt 120000)) None None)
  = u "<div class=`item`>
                  <div class=`thumb`>☕</div>
                  <div class=`meta`>
                    <div class=`name`>
                      <h4>Latte &lt;b&gt;&amp;</h4>
                      <div class=`price`>۱۲۰۰۰۰ K</div>
                    </div>
                    <div class=`desc`>milk</div>
                  </div>
                </div>".
Proof. by_computation. Qed.

Example is_url_samples :
  is_url (u "https://t.me/cafe") = true
  /\ is_url (u " HTTP://x ") = true
  /\ is_url (u "@cafe") = false
  /\ is_url (u "ftp://x") = false.
Proof. by_computation. Qed.

(** ** Strings *)

Lemma eqb_str_eq (a b : pystr) : eqb_str a b = true <-> a = b.
Proof.
  revert b; induction a as [|x a IH]; intros [|y b]; simpl; split;
    try discriminate; try reflexivity.
  - intros H. apply andb_true_iff in H as [Hx Hab].
    apply N.eqb_eq in Hx. apply IH in Hab. now subst.
  - intros H. injection H as -> ->. rewrite N.eqb_refl. simpl. now apply IH.
Qed.

Lemma truthy_false (s : pystr) : truthy s = false <-> s = [].
Proof. destruct s; simpl; split; congruence. Qed.

Lemma truthy_true (s : pystr) : truthy s = true <-> s <> [].
Proof. destruct s; simpl; split; congruence. Qed.

Lemma fstr_cons (p : part) (ps : list part) :
  fstr (p :: ps) = part_text p ++ fstr ps.
Proof. reflexivity. Qed.

Lemma fstr_app (ps qs : list part) : fstr (ps ++ qs) = fstr ps ++ fstr qs.
Proof. unfold fstr. apply flat_map_app. Qed.

(** *** strip *)

Lemma lstrip_app (a b : pystr) : lstrip a <> [] -> lstrip (a ++ b) = lstrip a ++ b.
Proof.
  induction a as [|c a IH]; simpl; [congruence|].
  destruct (is_space c); auto.
Qed.

Lemma rstrip_app (a b : pystr) :
  rstrip (a ++ b) = match rstrip b with [] => rstrip a | r => a ++ r end.
Proof.
  induction a as [|c a IH]; simpl.
  - now destruct (rstrip b).
  - rewrite IH. destruct (rstrip b); [reflexivity|].
    now destruct a.
Qed.

Lemma rstrip_app_keep (a b : pystr) :
  rstrip b <> [] -> rstrip (a ++ b) = a ++ rstrip b.
Proof. intros H. rewrite rstrip_app. now destruct (rstrip b). Qed.

Lemma rstrip_idem (s : pystr) : rstrip (rstrip s) = rstrip s.
Proof.
  induction s as [|c s IH]; simpl; [reflexivity|].
  destruct (rstrip s) as [|d r] eqn:E.
  - destruct (is_space c) eqn:Ec; simpl; [reflexivity|]. now rewrite Ec.
  - change (rstrip (c :: d :: r)) with
      (match rstrip (d :: r) with [] => if is_space c then [] else [c] | r' => c :: r' end).
    now rewrite IH.
Qed.

Lemma lstrip_head (s : pystr) :
  match lstrip s with [] => True | c :: _ => is_space c = false end.
Proof.
  induction s as [|c s IH]; simpl; [exact I|].
  destruct (is_space c) eqn:E; [exact IH | exact E].
Qed.

Lemma rstrip_head (s : pystr) :
  match s with
  | [] => True
  | c :: _ => is_space c = false ->
              match rstrip s with [] => False | d :: _ => d = c end
  end.
Proof.
  destruct s as [|c s]; [exact I|]. simpl. intros Hc.
  destruct (rstrip s); [now rewrite Hc | reflexivity].
Qed.

(** A stripped string that is not empty starts with a character that is
    not whitespace, and stripping it again changes nothing. *)
Lemma strip_head (s : pystr) :
  match strip s with [] => True | c :: _ => is_space c = false end.
Proof.
  unfold strip. pose proof (lstrip_head s) as H.
  destruct (lstrip s) as [|c r] eqn:E; [exact I|].
  pose proof (rstrip_head (c :: r)) as H'. simpl in H'. specialize (H' H).
  simpl. destruct (rstrip r); [now rewrite H | exact H].
Qed.

Lemma rstrip_strip (s : pystr) : rstrip (strip s) = strip s.
Proof. unfold strip. apply rstrip_idem. Qed.

Lemma lstrip_fixed (s : pystr) :
  match s with [] => True | c :: _ => is_space c = false end -> lstrip s = s.
Proof. destruct s as [|c s]; simpl; [reflexivity|]. now intros ->. Qed.

Lemma norm_text_head (x : value) :
  match norm_text x with [] => True | c :: _ => is_space c = false end.
Proof. destruct x; simpl; try exact I; apply strip_head. Qed.

Lemma rstrip_norm_text (x : value) : rstrip (norm_text x) = norm_text x.
Proof. destruct x; simpl; try reflexivity; apply rstrip_strip. Qed.

(** *** translate *)

Lemma to_persian_digits_app (a b : pystr) :
  to_persian_digits (a ++ b) = to_persian_digits a ++ to_persian_digits b.
Proof. unfold to_persian_digits, translate. apply map_app. Qed.

Ltac split_eqb :=
  repeat match goal with
  | |- context [?a =? ?b] => destruct (N.eqb_spec a b); try lia
  | |- context [?a <=? ?b] => destruct (N.leb_spec a b); try lia
  end.

Lemma persian_digit_cases (c : N) :
  (is_digit c = true /\ persian_digit c = c + 1728)
  \/ (is_digit c = false /\ persian_digit c = c).
Proof.
  unfold persian_digit, is_digit. cbn.
  destruct (N.leb_spec 48 c) as [Hlo|Hlo]; destruct (N.leb_spec c 57) as [Hhi|Hhi];
    simpl; [left | right | right | right]; (split; [reflexivity|]);
    split_eqb; subst; try reflexivity; lia.
Qed.

Lemma persian_digit_space (c : N) : is_space (persian_digit c) = is_space c.
Proof.
  destruct (persian_digit_cases c) as [[Hd ->]|[_ ->]]; [|reflexivity].
  unfold is_digit in Hd. apply andb_true_iff in Hd as [H1 H2].
  apply N.leb_le in H1, H2. unfold is_space.
  split_eqb; reflexivity.
Qed.

Lemma to_persian_digits_cons (c : N) (s : pystr) :
  to_persian_digits (c :: s) = persian_digit c :: to_persian_digits s.
Proof. unfold to_persian_digits, translate, persian_digit. cbn [map]. reflexivity. Qed.

Lemma to_persian_digits_lstrip (s : pystr) :
  to_persian_digits (lstrip s) = lstrip (to_persian_digits s).
Proof.
  induction s as [|c s IH]; [reflexivity|].
  rewrite to_persian_digits_cons. cbn [lstrip]. rewrite persian_digit_space.
  destruct (is_space c); [exact IH | reflexivity].
Qed.

Lemma to_persian_digits_rstrip (s : pystr) :
  to_persian_digits (rstrip s) = rstrip (to_persian_digits s).
Proof.
  induction s as [|c s IH]; [reflexivity|].
  rewrite to_persian_digits_cons. cbn [rstrip]. rewrite <- IH, persian_digit_space.
  destruct (rstrip s); [now destruct (is_space c) | reflexivity].
Qed.

Lemma to_persian_digits_strip (s : pystr) :
  to_persian_digits (strip s) = strip (to_persian_digits s).
Proof.
  unfold strip. now rewrite to_persian_digits_rstrip, to_persian_digits_lstrip.
Qed.

Lemma to_persian_digits_no_digit (s : pystr) :
  forallb (fun c => negb (is_digit c)) s = true -> to_persian_digits s = s.
Proof.
  induction s as [|c s IH]; [reflexivity|]. simpl forallb.
  intros H. apply andb_true_iff in H as [Hc Hs].
  rewrite to_persian_digits_cons, (IH Hs). f_equal.
  destruct (persian_digit_cases c) as [[Hd _]|[_ ->]]; [|reflexivity].
  now rewrite Hd in Hc.
Qed.

(** ** Price formatting *)

Lemma fmt_price_dash (price : value) (c : pystr) (flag : bool) :
  norm_text price = [] \/ norm_text price = u "-" ->
  fmt_price price c flag = u "-".
Proof.
  unfold fmt_price. intros [-> | ->]; reflexivity.
Qed.

Lemma fmt_price_body (price : value) (c : pystr) (flag : bool) :
  norm_text price <> [] -> norm_text price <> u "-" ->
  fmt_price price c flag =
    digits_if flag
      (if price_re (norm_text price)
       then strip (norm_text price ++ u " " ++ c)
       else norm_text price).
Proof.
  intros Hne Hdash. unfold fmt_price.
  apply truthy_true in Hne. rewrite Hne. simpl negb. simpl orb.
  destruct (eqb_str (norm_text price) (u "-")) eqn:E.
  - apply eqb_str_eq in E. contradiction.
  - unfold digits_if, fstr. simpl flat_map. now rewrite app_nil_r.
Qed.

Lemma price_re_shape (p : pystr) :
  price_re p = true -> p <> [] /\ p <> u "-".
Proof.
  destruct p as [|c p]; simpl; [discriminate|].
  intros H. split; [discriminate|].
  intros E. injection E as -> ->. discriminate.
Qed.

(** The label is appended behind one space and the whole is stripped:
    on a stripped value this only drops whitespace at the end of the
    label, and a blank label leaves the value alone. *)
Lemma strip_value_label (p c : pystr) :
  p <> [] -> lstrip p = p -> rstrip p = p ->
  strip (p ++ u " " ++ c) =
    match rstrip c with [] => p | r => p ++ u " " ++ r end.
Proof.
  intros Hne Hl Hr. unfold strip.
  rewrite lstrip_app by (rewrite Hl; exact Hne). rewrite Hl.
  rewrite rstrip_app. change (u " " ++ c) with (32 :: c).
  simpl rstrip. destruct (rstrip c); [exact Hr | reflexivity].
Qed.

Lemma fmt_price_numeric (price : value) (c : pystr) (flag : bool) :
  price_re (norm_text price) = true ->
  fmt_price price c flag =
    digits_if flag
      match rstrip c with
      | [] => norm_text price
      | r => norm_text price ++ u " " ++ r
      end.
Proof.
  intros H. destruct (price_re_shape _ H) as [Hne Hdash].
  rewrite fmt_price_body by assumption. rewrite H. f_equal.
  apply strip_value_label; [exact Hne | | apply rstrip_norm_text].
  apply lstrip_fixed. apply norm_text_head.
Qed.

(** C4. When the normalized price is empty or the literal "-",
    [fmt_price] returns exactly "-" for every currency label and for
    either setting of the numeral flag. *)
Theorem fmt_price_unavailable (price : value) (currency : pystr) (flag : bool) :
  norm_text price = [] \/ norm_text price = u "-" ->
  fmt_price price currency flag = u "-"
  /\ fmt_price price currency true = fmt_price price currency false.
Proof.
  intros H. split; [now apply fmt_price_dash|].
  now rewrite !fmt_price_dash.
Qed.

Lemma fmt_price_unavailable_witness :
  fmt_price (VStr (u "  - ")) (u "K") true = u "-"
  /\ fmt_price VNone (u "K") true = fmt_price VNone (u "K") false.
Proof.
  split.
  - apply (fmt_price_unavailable (VStr (u "  - ")) (u "K") true).
    right. vm_compute. reflexivity.
  - apply (fmt_price_unavailable VNone (u "K") true).
    left. reflexivity.
Defined.




(** C3. When the trimmed price is neither empty nor "-", formatting with
    the numeral flag set equals converting the digits of the result
    obtained with the flag unset.  So for a numeric price the digits of
    the currency label are converted too, and a label without standard
    digits is left as it is. *)
Theorem fmt_price_persian_digits (price : value) (currency : pystr) :
  norm_text price <> [] -> norm_text price <> u "-" ->
  fmt_price price currency true = to_persian_digits (fmt_price price currency false)
  /\ (price_re (norm_text price) = true -> rstrip currency <> [] ->
      fmt_price price currency true =
        to_persian_digits (norm_text price) ++ u " "
          ++ to_persian_digits (rstrip currency))
  /\ (forallb (fun c => negb (is_digit c)) currency = true ->
      to_persian_digits currency = currency).
Proof.
  intros Hne Hdash. split; [|split].
  - now rewrite !fmt_price_body.
  - intros H Hr. rewrite fmt_price_numeric by exact H.
    destruct (rstrip currency) as [|c r]; [contradiction|].
    unfold digits_if. now rewrite !to_persian_digits_app.
  - apply to_persian_digits_no_digit.
Qed.

Lemma fmt_price_persian_digits_witness :
  fmt_price (VInt 120000) (u "K2") true
    = to_persian_digits (fmt_price (VInt 120000) (u "K2") false)
  /\ fmt_price (VInt 120000) (u "K2") true = u "۱۲۰۰۰۰ K۲"
  /\ to_persian_digits (u "K") = u "K".
Proof.
  pose proof (fmt_price_persian_digits (VInt 120000) (u "K2")) as H.
  destruct H as [H1 [H2 _]]; [vm_compute; discriminate | vm_compute; discriminate |].
  split; [exact H1|]. split.
  - rewrite H2 by (vm_compute; (reflexivity || discriminate)).
    vm_compute. reflexivity.
  - pose proof (fmt_price_persian_digits (VInt 120000) (u "K")) as H.
    destruct H as [_ [_ H3]]; [vm_compute; discriminate | vm_compute; discriminate |].
    apply H3. vm_compute. reflexivity.
Defined.

(** ** HTML escaping *)

Lemma escape_app (a b : pystr) : escape (a ++ b) = escape a ++ escape b.
Proof. unfold escape, replace. now rewrite !flat_map_app. Qed.

Lemma escape_single (c : N) : escape [c] = escape_char c.
Proof.
  unfold escape_char, ch. cbn [N_of_ascii N_of_digits N.add N.mul Pos.add Pos.mul Pos.succ].
  destruct (N.eqb_spec c 38) as [->|H1]; [reflexivity|].
  destruct (N.eqb_spec c 60) as [->|H2]; [reflexivity|].
  destruct (N.eqb_spec c 62) as [->|H3]; [reflexivity|].
  destruct (N.eqb_spec c 34) as [->|H4]; [reflexivity|].
  destruct (N.eqb_spec c 39) as [->|H5]; [reflexivity|].
  apply N.eqb_neq in H1, H2, H3, H4, H5.
  unfold escape, replace, ch. cbn. rewrite H1. cbn. rewrite H2. cbn.
  rewrite H3. cbn. rewrite H4. cbn. rewrite H5. reflexivity.
Qed.

Lemma escape_cons (c : N) (s : pystr) : escape (c :: s) = escape_char c ++ escape s.
Proof. change (c :: s) with ([c] ++ s). now rewrite escape_app, escape_single. Qed.

Lemma escape_nil : escape [] = [].
Proof. reflexivity. Qed.

Lemma escape_truthy (s : pystr) : truthy (escape s) = truthy s.
Proof.
  destruct s as [|c s]; [reflexivity|]. rewrite escape_cons.
  unfold escape_char. repeat (destruct (_ =? _); [reflexivity|]). reflexivity.
Qed.

Lemma escape_char_cases (c : N) :
  (markup_char c = false /\ c <> 38 /\ escape_char c = [c])
  \/ In (escape_char c) [u "&amp;"; u "&lt;"; u "&gt;"; u "&quot;"; u "&#x27;"].
Proof.
  unfold escape_char, markup_char, ch.
  cbn [N_of_ascii N_of_digits N.add N.mul Pos.add Pos.mul Pos.succ].
  destruct (N.eqb_spec c 38); [right; simpl; tauto|].
  destruct (N.eqb_spec c 60); [right; simpl; tauto|].
  destruct (N.eqb_spec c 62); [right; simpl; tauto|].
  destruct (N.eqb_spec c 34); [right; simpl; tauto|].
  destruct (N.eqb_spec c 39); [right; simpl; tauto|].
  left. auto.
Qed.

Lemma escape_escaped_text (s : pystr) : escaped_text (escape s) = true.
Proof.
  induction s as [|c s IH]; [reflexivity|]. rewrite escape_cons.
  destruct (escape_char_cases c) as [[Hm [Hc ->]]|H].
  - simpl. rewrite Hm, IH. apply N.eqb_neq in Hc.
    change (ch "&") with 38. now rewrite Hc.
  - simpl in H.
    destruct H as [<-|[<-|[<-|[<-|[<-|[]]]]]]; simpl; exact IH.
Qed.

Lemma escaped_text_no_markup (s : pystr) (c : N) :
  escaped_text s = true -> In c s -> markup_char c = false.
Proof.
  induction s as [|d s IH]; simpl; [tauto|].
  intros H [->|Hin].
  - apply andb_true_iff in H as [H _]. apply andb_true_iff in H as [H _].
    now apply negb_true_iff in H.
  - apply andb_true_iff in H as [_ H]. now apply IH.
Qed.

Lemma escape_no_markup (s : pystr) (c : N) :
  In c (escape s) -> markup_char c = false.
Proof. apply escaped_text_no_markup, escape_escaped_text. Qed.

Lemma escape_no_lt (s : pystr) (c : N) : In c (escape s) -> c <> ch "<".
Proof.
  intros H E. apply escape_no_markup in H. subst c. discriminate.
Qed.

Lemma escape_plain (s : pystr) : forallb plain_char s = true -> escape s = s.
Proof.
  induction s as [|c s IH]; [reflexivity|]. simpl forallb.
  intros H. apply andb_true_iff in H as [Hc Hs].
  rewrite escape_cons, (IH Hs).
  destruct (escape_char_cases c) as [[_ [_ ->]]|H]; [reflexivity|].
  exfalso. unfold plain_char, markup_char in Hc.
  apply negb_true_iff in Hc. revert H Hc. unfold escape_char, ch.
  cbn [N_of_ascii N_of_digits N.add N.mul Pos.add Pos.mul Pos.succ].
  destruct (c =? 38); [now rewrite !orb_true_r|].
  destruct (c =? 60); [discriminate|].
  destruct (c =? 62); [discriminate|].
  destruct (c =? 34); [discriminate|].
  destruct (c =? 39); [discriminate|].
  simpl. intros [H|[H|[H|[H|[H|[]]]]]]; discriminate.
Qed.

(** ** Occurrences of a pattern *)

Lemma count_skip (p : N) (pat s t : pystr) :
  (forall c, In c s -> c <> p) ->
  count (p :: pat) (s ++ t) = count (p :: pat) t.
Proof.
  induction s as [|c s IH]; intros H; [reflexivity|].
  simpl app. simpl count.
  assert ((p =? c) = false) as ->.
  { apply N.eqb_neq. intros E. apply (H c); [now left | now symmetry]. }
  simpl. apply IH. intros d Hd. apply H. now right.
Qed.

(** Literals are read once, so that the text they stand for can be
    inspected by computation. *)
Ltac read_literals :=
  repeat match goal with
  | |- context [u ?s] =>
      let v := eval vm_compute in (u s) in change (u s) with v
  end.

(** ** The link-or-text row *)

(** C5 (counterexample). The anchor rendered for a URL carries
    [target=_blank] and [rel=noopener] only: nothing in it withholds the
    referrer. *)
Lemma link_or_text_keeps_referrer :
  is_url (u "https://t.me/cafe") = true
  /\ link_or_text (u "Telegram") (u "https://t.me/cafe")
     = u "<div class=`row`><b>Telegram:</b> <a href=`https://t.me/cafe` target=`_blank` rel=`noopener`>https://t.me/cafe</a></div>"
  /\ withholds_referrer (link_or_text (u "Telegram") (u "https://t.me/cafe")) = false.
Proof. by_computation. Qed.

Lemma text_row_no_anchor (label txt : pystr) :
  occurs (u "<a") (fstr (text_row label (escape txt))) = false.
Proof.
  unfold occurs. apply negb_false_iff, Nat.eqb_eq.
  unfold text_row, fstr. cbn [flat_map part_text]. read_literals.
  cbn [app count starts_with N.eqb Pos.eqb andb Nat.add].
  rewrite (count_skip 60 [97] (escape label)) by apply escape_no_lt.
  cbn [app count starts_with N.eqb Pos.eqb andb Nat.add].
  rewrite (count_skip 60 [97] (escape txt)) by apply escape_no_lt.
  reflexivity.
Qed.

(** C5 (amended). [link_or_text] renders nothing for an empty value.  For
    a value that matches the URL prefix it renders a row with an anchor
    whose [href] is the escaped value (the value itself when it has no
    [&], [<], [>] or quote), opened in a new browsing context with
    [rel=noopener]; the referrer is not withheld.  For any other value it
    renders a row of escaped label and escaped text without an anchor
    element. *)
Theorem link_or_text_cases (label val : pystr) :
  (val = [] -> link_or_text label val = [])
  /\ (val <> [] -> is_url val = true ->
      link_or_text label val =
        u "<div class=`row`><b>" ++ escape label ++ u ":</b> <a href=`"
          ++ escape val ++ u "` target=`_blank` rel=`noopener`>"
          ++ escape val ++ u "</a></div>")
  /\ (val <> [] -> is_url val = false ->
      link_or_text label val =
        u "<div class=`row`><b>" ++ escape label ++ u ":</b> "
          ++ escape val ++ u "</div>"
      /\ occurs (u "<a") (link_or_text label val) = false)
  /\ (forallb plain_char val = true -> escape val = val).
Proof.
  split; [|split; [|split]].
  - intros ->. reflexivity.
  - intros Hne Hu. apply truthy_true in Hne. unfold link_or_text.
    rewrite Hne, Hu. unfold link_row, fstr. cbn [negb flat_map part_text].
    now rewrite app_nil_r.
  - intros Hne Hu. apply truthy_true in Hne. unfold link_or_text.
    rewrite Hne, Hu. cbn [negb]. split; [|apply text_row_no_anchor].
    unfold text_row, fstr. cbn [flat_map part_text]. now rewrite app_nil_r.
  - apply escape_plain.
Qed.

Lemma link_or_text_cases_witness :
  link_or_text (u "Telegram") [] = []
  /\ link_or_text (u "Telegram") (u "https://t.me/cafe")
     = u "<div class=`row`><b>Telegram:</b> <a href=`https://t.me/cafe` target=`_blank` rel=`noopener`>https://t.me/cafe</a></div>"
  /\ link_or_text (u "Telegram") (u "@cafe")
     = u "<div class=`row`><b>Telegram:</b> @cafe</div>"
  /\ occurs (u "<a") (link_or_text (u "Telegram") (u "@cafe")) = false.
Proof.
  split; [|split; [|split]].
  - apply (link_or_text_cases (u "Telegram") []). reflexivity.
  - destruct (link_or_text_cases (u "Telegram") (u "https://t.me/cafe"))
      as [_ [H _]].
    rewrite H by (vm_compute; (discriminate || reflexivity)).
    vm_compute. reflexivity.
  - destruct (link_or_text_cases (u "Telegram") (u "@cafe")) as [_ [_ [H _]]].
    destruct H as [H _]; [vm_compute; discriminate | vm_compute; reflexivity |].
    rewrite H. vm_compute. reflexivity.
  - destruct (link_or_text_cases (u "Telegram") (u "@cafe")) as [_ [_ [H _]]].
    destruct H as [_ H]; [vm_compute; discriminate | vm_compute; reflexivity |].
    exact H.
Defined.

(** ** Decimal numbers *)

Lemma uint_text_digits (d : Decimal.uint) : forallb int_char (uint_text d) = true.
Proof. induction d; simpl; auto. Qed.

Lemma str_int_chars (z : Z) : forallb int_char (str_int z) = true.
Proof.
  unfold str_int. destruct (Z.to_int z); simpl; apply uint_text_digits.
Qed.

Lemma uint_text_nonempty (d : Decimal.uint) : d <> Decimal.Nil -> uint_text d <> [].
Proof. destruct d; simpl; congruence. Qed.

Lemma str_int_nonempty (z : Z) : str_int z <> [].
Proof.
  unfold str_int. destruct z as [|p|p]; simpl; try discriminate.
  apply uint_text_nonempty, Unsigned.to_uint_nonnil.
Qed.

Lemma int_char_props (c : N) :
  int_char c = true ->
  plain_char c = true /\ is_space c = false /\ c <> ch "<".
Proof.
  unfold int_char, is_digit, plain_char, markup_char, is_space, ch.
  cbn [N_of_ascii N_of_digits N.add N.mul Pos.add Pos.mul Pos.succ].
  intros H. apply orb_true_iff in H.
  assert (Hc : 48 <= c <= 57 \/ c = 45).
  { destruct H as [H|H]; [left | right; now apply N.eqb_eq].
    apply andb_true_iff in H as [H1 H2]. apply N.leb_le in H1, H2. lia. }
  clear H. repeat split; try lia; split_eqb; reflexivity.
Qed.

Lemma forallb_In {A : Type} (f : A -> bool) (l : list A) (x : A) :
  forallb f l = true -> In x l -> f x = true.
Proof. intros H. now apply forallb_forall. Qed.

Lemma str_int_no_lt (z : Z) (c : N) : In c (str_int z) -> c <> ch "<".
Proof.
  intros H. apply (forallb_In _ _ _ (str_int_chars z)) in H.
  now apply int_char_props in H.
Qed.

Lemma str_int_plain (z : Z) : forallb plain_char (str_int z) = true.
Proof.
  apply forallb_forall. intros c H.
  apply (forallb_In _ _ _ (str_int_chars z)) in H. now apply int_char_props in H.
Qed.

Lemma rstrip_no_space (s : pystr) :
  forallb (fun c => negb (is_space c)) s = true -> rstrip s = s.
Proof.
  induction s as [|c s IH]; [reflexivity|]. simpl.
  intros H. apply andb_true_iff in H as [Hc Hs]. rewrite (IH Hs).
  apply negb_true_iff in Hc. rewrite Hc. now destruct s.
Qed.

Lemma rstrip_str_int (z : Z) : rstrip (str_int z) = str_int z.
Proof.
  apply rstrip_no_space, forallb_forall. intros c H.
  apply (forallb_In _ _ _ (str_int_chars z)) in H.
  apply int_char_props in H as [_ [H _]]. now rewrite H.
Qed.

(** ** Stripping a template

    [render_card] and [render_section] strip the text of their template.
    Both templates begin and end with a literal that holds more than
    whitespace, so only these two literals are trimmed. *)

Lemma strip_template (h a l1 b l2 c l3 d t : pystr) :
  lstrip h <> [] -> rstrip t <> [] ->
  strip (fstr [Lit h; Val a; Lit l1; Val b; Lit l2; Val c; Lit l3; Val d; Lit t])
  = fstr [Lit (lstrip h); Val a; Lit l1; Val b; Lit l2; Val c; Lit l3; Val d;
          Lit (rstrip t)].
Proof.
  intros Hh Ht. unfold strip, fstr. cbn [flat_map part_text].
  rewrite lstrip_app by exact Hh. rewrite !app_nil_r.
  replace (lstrip h ++ a ++ l1 ++ b ++ l2 ++ c ++ l3 ++ d ++ t)
    with ((lstrip h ++ a ++ l1 ++ b ++ l2 ++ c ++ l3 ++ d) ++ t)
    by (now rewrite <- !app_assoc).
  rewrite rstrip_app_keep by exact Ht. now rewrite <- !app_assoc.
Qed.

(** ** The page is template text around escaped values *)

Lemma lit_ok_templated (l : pystr) : lit_ok l = true -> templated l.
Proof.
  intros H. apply templated_lit. apply existsb_exists in H as [x [Hin Hx]].
  apply eqb_str_eq in Hx. now subst.
Qed.

Lemma templated_fstr (ps : list part) : Forall part_ok ps -> templated (fstr ps).
Proof.
  induction 1 as [|p ps Hp _ IH]; [apply templated_nil|].
  rewrite fstr_cons. apply templated_app; [|exact IH].
  destruct Hp as [l Hl|v Hv]; [now apply lit_ok_templated | exact Hv].
Qed.

Lemma templated_join (sep : pystr) (l : list pystr) :
  templated sep -> Forall templated l -> templated (join sep l).
Proof.
  intros Hsep. induction 1 as [|x l Hx Hl IH]; [apply templated_nil|].
  destruct l as [|y l]; [exact Hx|].
  change (join sep (x :: y :: l)) with (x ++ sep ++ join sep (y :: l)).
  now repeat apply templated_app.
Qed.

Lemma templated_NL : templated NL.
Proof. apply lit_ok_templated. vm_compute. reflexivity. Qed.

Create HintDb tpl.
#[local] Hint Resolve templated_nil templated_text templated_int templated_NL : tpl.

(** Splits a template into its parts: the literals are looked up in
    [TEMPLATE_LITERALS], the values are left as goals. *)
Ltac template_parts :=
  apply templated_fstr;
  repeat first
    [ apply Forall_nil
    | apply Forall_cons
    | apply ok_lit; vm_compute; reflexivity
    | apply ok_val ].

Lemma templated_link_or_text (label val : pystr) :
  templated (link_or_text label val).
Proof.
  unfold link_or_text. destruct (truthy val); cbn [negb]; [|apply templated_nil].
  destruct (is_url val); [unfold link_row | unfold text_row];
    template_parts; auto with tpl.
Qed.

Lemma templated_anchor (idx : Z) : templated (fstr (anchor_of idx)).
Proof. unfold anchor_of. template_parts; auto with tpl. Qed.

Lemma templated_render_pill (idx : Z) (cat : Cat.t) :
  templated (render_pill idx cat).
Proof.
  unfold render_pill, pill. template_parts; auto using templated_anchor with tpl.
Qed.

Lemma templated_render_card (currency : pystr) (flag : bool) (it : Item.t) :
  templated (render_card currency flag it).
Proof.
  unfold render_card, card.
  rewrite strip_template by (vm_compute; discriminate).
  assert (Hname : templated
            (por (escape (norm_text (get (Item.name it) (VStr [])))) NO_NAME)).
  { unfold por. destruct (truthy _); [apply templated_text|].
    apply lit_ok_templated. vm_compute. reflexivity. }
  template_parts; auto with tpl.
  - destruct (truthy _ && is_url _); [unfold thumb_img | unfold thumb_icon];
      template_parts; auto with tpl.
  - destruct (truthy _); [|apply templated_nil].
    unfold desc_div. template_parts; auto with tpl.
Qed.

Lemma templated_render_grid (currency : pystr) (flag : bool) (items : list Item.t) :
  templated (render_grid (render_cards currency flag items)).
Proof.
  unfold render_grid, render_cards.
  destruct (map _ items) as [|c cs] eqn:E.
  - apply lit_ok_templated. vm_compute. reflexivity.
  - rewrite <- E. apply templated_join; [apply templated_NL|].
    apply Forall_map, Forall_forall. intros. apply templated_render_card.
Qed.

Lemma templated_render_section (currency : pystr) (flag : bool) (idx : Z)
    (cat : Cat.t) :
  templated (render_section currency flag idx cat).
Proof.
  unfold render_section, section.
  rewrite strip_template by (vm_compute; discriminate).
  template_parts;
    auto using templated_anchor, templated_render_grid with tpl.
Qed.

Lemma starts_with_app_r (p s b : pystr) :
  starts_with p s = true -> starts_with p (s ++ b) = true.
Proof.
  revert s; induction p as [|x p IH]; intros [|y s]; simpl; try discriminate;
    try reflexivity.
  intros H. apply andb_true_iff in H as [-> H]. now apply IH.
Qed.

Lemma template_tags_app (a b : pystr) :
  template_tags_only a = true -> template_tags_only b = true ->
  template_tags_only (a ++ b) = true.
Proof.
  intros Ha Hb. induction a as [|c a IH]; [exact Hb|].
  cbn [app template_tags_only] in *.
  apply andb_true_iff in Ha as [Hc Ha]. rewrite (IH Ha), andb_true_r.
  destruct (c =? ch "<"); [|reflexivity].
  apply existsb_exists in Hc as [p [Hin Hp]]. apply existsb_exists.
  exists p. split; [exact Hin|]. now apply starts_with_app_r.
Qed.

Lemma template_tags_no_lt (t : pystr) :
  (forall c, In c t -> c <> ch "<") -> template_tags_only t = true.
Proof.
  induction t as [|c t IH]; intros H; [reflexivity|].
  cbn [template_tags_only]. rewrite IH by (intros d Hd; apply H; now right).
  assert (Hc : c <> ch "<") by (apply H; now left).
  apply N.eqb_neq in Hc. now rewrite Hc.
Qed.

Lemma template_literals_tags :
  forallb template_tags_only TEMPLATE_LITERALS = true.
Proof. vm_compute. reflexivity. Qed.

(** A templated text opens no tag but those of the templates. *)
Lemma templated_tags (t : pystr) : templated t -> template_tags_only t = true.
Proof.
  induction 1 as [|l Hl|r|z|a b _ IHa _ IHb].
  - reflexivity.
  - exact (forallb_In _ _ _ template_literals_tags Hl).
  - apply template_tags_no_lt, escape_no_lt.
  - apply template_tags_no_lt, str_int_no_lt.
  - now apply template_tags_app.
Qed.

(** So [templated] is a real restriction: a text with a tag of its own
    is not templated. *)
Example script_not_templated : ~ templated (u "<script>alert(1)</script>").
Proof. intros H. apply templated_tags in H. vm_compute in H. discriminate. Qed.

(** C1. Whatever the input document, the page title, the numeral flag
    and the timestamp, the rendered page is put together from the literal
    text of the templates, from decimal numbers and from values that went
    through [escape]; an escaped value contains none of [<], [>] and the
    quotes, and no [&] other than the start of a character reference.  So
    no markup-significant character of an input field reaches the page
    unescaped, and every tag of the page is a tag of the templates. *)
Theorem render_html_escapes (data : Data.t) (page_title : pystr) (flag : bool)
    (generated_at : pystr) :
  templated (render_html data page_title flag generated_at)
  /\ template_tags_only (render_html data page_title flag generated_at) = true
  /\ (forall r, escaped_text (escape r) = true)
  /\ (forall r c, In c (escape r) -> markup_char c = false).
Proof.
  assert (H : templated (render_html data page_title flag generated_at)).
  { unfold render_html, page.
    template_parts; auto using templated_link_or_text with tpl.
    - destruct (truthy _); [apply templated_text|].
      apply lit_ok_templated. vm_compute. reflexivity.
    - apply templated_join; [apply templated_NL|]. unfold cat_pills.
      apply Forall_map, Forall_forall. intros. apply templated_render_pill.
    - destruct (truthy _).
      + unfold phone_row. template_parts; auto with tpl.
      + apply lit_ok_templated. vm_compute. reflexivity.
    - apply templated_join; [apply templated_app; apply templated_NL|].
      unfold sections_html.
      apply Forall_map, Forall_forall. intros. apply templated_render_section. }
  split; [exact H|]. split; [now apply templated_tags|].
  split; [apply escape_escaped_text | apply escape_no_markup].
Qed.

(** ** Anchors and labels of the categories *)

Lemma starts_with_app (a b c : pystr) :
  starts_with (a ++ b) (a ++ c) = starts_with b c.
Proof. induction a as [|x a IH]; simpl; [reflexivity|]. now rewrite N.eqb_refl. Qed.

Lemma starts_with_split (p s : pystr) :
  starts_with p s = true -> exists r, s = p ++ r.
Proof.
  revert s; induction p as [|x p IH]; intros s; simpl.
  - intros _. now exists s.
  - destruct s as [|y s]; [discriminate|]. intros H.
    apply andb_true_iff in H as [Hx Hp]. apply N.eqb_eq in Hx. subst y.
    destruct (IH _ Hp) as [r ->]. now exists r.
Qed.

Lemma anchor_text (idx : Z) : fstr (anchor_of idx) = u "cat-" ++ str_int idx.
Proof. unfold anchor_of, fstr. cbn [flat_map part_text]. now rewrite app_nil_r. Qed.

Lemma anchor_no_lt (idx : Z) (c : N) : In c (fstr (anchor_of idx)) -> c <> ch "<".
Proof.
  rewrite anchor_text. intros H. apply in_app_or in H as [H|H].
  - vm_compute in H. vm_compute. intros E. subst c.
    repeat (destruct H as [H|H]; [discriminate|]). exact H.
  - now apply str_int_no_lt in H.
Qed.

(** The fallback title [f"دسته {idx}"] is already normal and has nothing
    to escape. *)
Lemma default_title_text (idx : Z) :
  escape (norm_text (VStr (fstr (default_title idx)))) = u "دسته " ++ str_int idx.
Proof.
  unfold default_title, fstr, norm_text, str, strip.
  cbn [flat_map part_text]. rewrite app_nil_r.
  rewrite lstrip_fixed by (vm_compute; reflexivity).
  rewrite rstrip_app_keep
    by (rewrite rstrip_str_int; apply str_int_nonempty).
  rewrite rstrip_str_int, escape_app.
  rewrite (escape_plain (str_int idx)) by apply str_int_plain.
  f_equal.
Qed.

Lemma render_pill_text (idx : Z) (cat : Cat.t) :
  render_pill idx cat =
    u "<a class=`pill` href=`#" ++ u "cat-" ++ str_int idx ++ u "`><strong>"
      ++ escape (norm_text (get (Cat.title cat) (VStr (fstr (default_title idx)))))
      ++ u "</strong></a>".
Proof.
  unfold render_pill. rewrite anchor_text. unfold pill, fstr.
  cbn [flat_map part_text]. now rewrite app_nil_r, <- !app_assoc.
Qed.

Lemma render_section_parts (currency : pystr) (flag : bool) (idx : Z) (cat : Cat.t) :
  render_section currency flag idx cat =
    fstr (trim_ends
            (section (fstr (anchor_of idx))
               (escape (norm_text (get (Cat.title cat) (VStr (fstr (default_title idx))))))
               (escape (norm_text (get (Cat.hint cat) (VStr []))))
               (render_grid (render_cards currency flag (get (Cat.items cat) []))))).
Proof.
  unfold render_section, section.
  rewrite strip_template by (vm_compute; discriminate).
  cbn [trim_ends trim_last]. reflexivity.
Qed.

Lemma fstr_split (n : nat) (ps : list part) :
  fstr ps = fstr (firstn n ps) ++ fstr (skipn n ps).
Proof. now rewrite <- fstr_app, firstn_skipn. Qed.

(** The text of a template around its [i]-th part. *)
Lemma fstr_at (ps : list part) (i : nat) (p : part) :
  nth_error ps i = Some p ->
  fstr ps = fstr (firstn i ps) ++ part_text p ++ fstr (skipn (S i) ps).
Proof.
  revert i; induction ps as [|q ps IH]; intros [|i];
    cbn [nth_error firstn skipn]; try discriminate.
  - intros H. injection H as ->. reflexivity.
  - intros H. rewrite !fstr_cons, (IH _ H), <- app_assoc. reflexivity.
Qed.

Lemma nth_error_enumerate {A : Type} (l : list A) (start : Z) (k : nat) (x : A) :
  nth_error l k = Some x ->
  nth_error (enumerate start l) k = Some ((start + Z.of_nat k)%Z, x).
Proof.
  revert start k; induction l as [|y l IH]; intros start [|k]; simpl;
    try discriminate.
  - intros H. injection H as ->. now rewrite Z.add_0_r.
  - intros H. rewrite (IH _ _ H). do 2 f_equal. lia.
Qed.

Lemma length_enumerate {A : Type} (l : list A) (start : Z) :
  List.length (enumerate start l) = List.length l.
Proof. revert start; induction l; intros; simpl; auto. Qed.

Lemma render_pill_anchor (idx : Z) (cat : Cat.t) :
  exists r, render_pill idx cat =
    u "<a class=`pill` href=`#cat-" ++ str_int idx ++ u "`>" ++ r.
Proof.
  assert (H : starts_with
                (u "<a class=`pill` href=`#cat-" ++ str_int idx ++ u "`>")
                (render_pill idx cat) = true).
  { rewrite render_pill_text. read_literals. cbn [app].
    cbn [starts_with N.eqb Pos.eqb andb]. rewrite starts_with_app. reflexivity. }
  apply starts_with_split in H as [r Hr]. exists r.
  rewrite Hr, <- !app_assoc. reflexivity.
Qed.

Lemma render_section_anchor (currency : pystr) (flag : bool) (idx : Z) (cat : Cat.t) :
  exists r, render_section currency flag idx cat =
    u "<section class=`section` id=`cat-" ++ str_int idx ++ u "`>" ++ r.
Proof.
  assert (H : starts_with
                (u "<section class=`section` id=`cat-" ++ str_int idx ++ u "`>")
                (render_section currency flag idx cat) = true).
  { rewrite render_section_parts, anchor_text. unfold section.
    cbn [trim_ends trim_last]. unfold fstr. cbn [flat_map part_text].
    match goal with
    | |- context [lstrip (u ?s)] =>
        let v := eval vm_compute in (lstrip (u s)) in change (lstrip (u s)) with v
    end.
    read_literals. rewrite <- !app_assoc. cbn [app].
    cbn [starts_with N.eqb Pos.eqb andb]. rewrite starts_with_app. reflexivity. }
  apply starts_with_split in H as [r Hr]. exists r.
  rewrite Hr, <- !app_assoc. reflexivity.
Qed.

(** C6 (counterexample). For a document with one category the section
    and the pill carry the anchor [cat-1]; the text [category-1] occurs
    nowhere in the page. *)
Lemma anchor_is_not_category_N :
  let out := render_html one_category (u "Menu") false (u "2026-01-01 10:00") in
  occurs (u "<section class=`section` id=`cat-1`>") out = true
  /\ occurs (u "<a class=`pill` href=`#cat-1`>") out = true
  /\ occurs (spec_anchor 1) out = false
  /\ starts_with (u "<section class=`section` id=`" ++ spec_anchor 1)
       (render_section (u "K") false 1 (Cat.mk (Some (VStr (u "Hot"))) None None))
     = false.
Proof. by_computation. Qed.

(** C6 (amended). The pills and the sections are built from the input
    categories in order, one per category, and joined into the page.
    The pill and the section of the category at 1-based position [idx]
    carry the anchor [cat-idx], which depends on the position only. *)
Theorem category_anchors (data : Data.t) (page_title : pystr) (flag : bool)
    (generated_at : pystr) :
  let menu := get (Data.menu data) [] in
  let currency := currency_of (get (Data.cafe data) Cafe.empty) in
  (exists pre mid post,
      render_html data page_title flag generated_at =
        pre ++ join NL (cat_pills menu) ++ mid
          ++ join (NL ++ NL) (sections_html currency flag menu) ++ post)
  /\ List.length (cat_pills menu) = List.length menu
  /\ List.length (sections_html currency flag menu) = List.length menu
  /\ (forall k cat, nth_error menu k = Some cat ->
        let idx := (Z.of_nat k + 1)%Z in
        nth_error (cat_pills menu) k = Some (render_pill idx cat)
        /\ nth_error (sections_html currency flag menu) k
           = Some (render_section currency flag idx cat)
        /\ (exists r, render_pill idx cat =
              u "<a class=`pill` href=`#cat-" ++ str_int idx ++ u "`>" ++ r)
        /\ (exists r, render_section currency flag idx cat =
              u "<section class=`section` id=`cat-" ++ str_int idx ++ u "`>" ++ r)).
Proof.
  intros menu currency. split; [|split; [|split]].
  - unfold render_html. fold menu. fold currency.
    do 3 eexists.
    match goal with
    | |- fstr ?P = _ => rewrite (fstr_at P 13 _ eq_refl)
    end.
    match goal with
    | |- context [fstr (skipn 14 ?P)] =>
        rewrite (fstr_at (skipn 14 P) 13 _ eq_refl)
    end.
    cbn [part_text]. reflexivity.
  - unfold cat_pills. now rewrite length_map, length_enumerate.
  - unfold sections_html. now rewrite length_map, length_enumerate.
  - intros k cat Hk idx. unfold cat_pills, sections_html.
    rewrite !nth_error_map, (nth_error_enumerate _ 1 _ _ Hk). cbn [option_map fst snd].
    replace (1 + Z.of_nat k)%Z with idx by (unfold idx; lia).
    repeat split; [apply render_pill_anchor | apply render_section_anchor].
Qed.

Lemma category_anchors_witness :
  nth_error (cat_pills (get (Data.menu one_category) [])) 0
  = Some (render_pill 1 (Cat.mk (Some (VStr (u "Hot"))) None None)).
Proof.
  destruct (category_anchors one_category (u "Menu") false (u "2026-01-01 10:00"))
    as [_ [_ [_ H]]].
  destruct (H O (Cat.mk (Some (VStr (u "Hot"))) None None)) as [H1 _];
    [reflexivity|].
  exact H1.
Defined.

(** C8 (counterexample). A category whose title is present but empty gets
    a pill with an empty label, not the fallback. *)
Lemma blank_title_pill :
  let cat := Cat.mk (Some (VStr [])) None None in
  norm_text (VStr []) = []
  /\ render_pill 1 cat = u "<a class=`pill` href=`#cat-1`><strong></strong></a>"
  /\ occurs (u "دسته 1") (render_pill 1 cat) = false
  /\ render_pill 1 (Cat.mk (Some VNone) None None) = render_pill 1 cat.
Proof. by_computation. Qed.

(** C8 (amended). The label of the pill at position [idx] is the fallback
    "دسته idx" when the category has no title key; when the key is
    present the label is the escaped normalized title, also when that is
    empty. *)
Theorem pill_label (idx : Z) (cat : Cat.t) :
  (Cat.title cat = None ->
     render_pill idx cat =
       u "<a class=`pill` href=`#" ++ u "cat-" ++ str_int idx ++ u "`><strong>"
         ++ (u "دسته " ++ str_int idx) ++ u "</strong></a>")
  /\ (forall v, Cat.title cat = Some v ->
        render_pill idx cat =
          u "<a class=`pill` href=`#" ++ u "cat-" ++ str_int idx ++ u "`><strong>"
            ++ escape (norm_text v) ++ u "</strong></a>").
Proof.
  split.
  - intros H. rewrite render_pill_text, H. cbn [get].
    now rewrite default_title_text.
  - intros v H. rewrite render_pill_text, H. reflexivity.
Qed.

Lemma pill_label_witness :
  render_pill 3 (Cat.mk None None None)
    = u "<a class=`pill` href=`#cat-3`><strong>دسته 3</strong></a>"
  /\ render_pill 2 (Cat.mk (Some (VStr (u " A&B "))) None None)
    = u "<a class=`pill` href=`#cat-2`><strong>A&amp;B</strong></a>".
Proof.
  split.
  - destruct (pill_label 3 (Cat.mk None None None)) as [H _].
    rewrite H by reflexivity. vm_compute. reflexivity.
  - destruct (pill_label 2 (Cat.mk (Some (VStr (u " A&B "))) None None)) as [_ H].
    rewrite (H (VStr (u " A&B "))) by reflexivity. vm_compute. reflexivity.
Defined.

(** ** The timestamp *)

(** C9. The page is a function of its arguments and of the clock reading
    alone, and the clock reading only fills the timestamp of the footer:
    for given data, title and flag the text before and the text after the
    escaped timestamp are the same in every run. *)
Theorem render_html_deterministic (data : Data.t) (page_title : pystr) (flag : bool) :
  exists pre post, forall generated_at,
    render_html data page_title flag generated_at
    = pre ++ escape generated_at ++ post.
Proof.
  do 2 eexists. intros generated_at. unfold render_html.
  match goal with
  | |- fstr ?P = _ => rewrite (fstr_at P 29 _ eq_refl)
  end.
  unfold page. cbn [firstn skipn part_text]. reflexivity.
Qed.

(** ** The contact block *)

Lemma link_or_text_rows (label val : pystr) :
  val <> [] ->
  link_or_text label val =
    if is_url val then
      u "<div class=`row`><b>" ++ escape label ++ u ":</b> <a href=`"
        ++ escape val ++ u "` target=`_blank` rel=`noopener`>"
        ++ escape val ++ u "</a></div>"
    else
      u "<div class=`row`><b>" ++ escape label ++ u ":</b> "
        ++ escape val ++ u "</div>".
Proof.
  intros Hne. apply truthy_true in Hne. unfold link_or_text. rewrite Hne.
  cbn [negb]. destruct (is_url val).
  - unfold link_row, fstr. cbn [flat_map part_text]. now rewrite app_nil_r.
  - unfold text_row, fstr. cbn [flat_map part_text]. now rewrite app_nil_r.
Qed.








(** ** The grid of an empty category *)

Lemma empty_section_one_card (anchor title hint : pystr) :
  (forall c, In c anchor -> c <> ch "<") ->
  count CARD_OPEN
    (fstr (trim_ends (section anchor (escape title) (escape hint) EMPTY_GRID)))
  = 1%nat.
Proof.
  intros Ha. unfold section. cbn [trim_ends trim_last].
  unfold fstr. cbn [flat_map part_text].
  repeat match goal with
  | |- context [lstrip (u ?s)] =>
      let v := eval vm_compute in (lstrip (u s)) in change (lstrip (u s)) with v
  | |- context [rstrip (u ?s)] =>
      let v := eval vm_compute in (rstrip (u s)) in change (rstrip (u s)) with v
  end.
  let v := eval vm_compute in EMPTY_GRID in change EMPTY_GRID with v.
  let v := eval vm_compute in CARD_OPEN in change CARD_OPEN with v.
  read_literals.
  cbn [app count starts_with N.eqb Pos.eqb andb Nat.add].
  rewrite (count_skip 60 _ anchor) by exact Ha.
  cbn [app count starts_with N.eqb Pos.eqb andb Nat.add].
  rewrite (count_skip 60 _ (escape title)) by apply escape_no_lt.
  cbn [app count starts_with N.eqb Pos.eqb andb Nat.add].
  rewrite (count_skip 60 _ (escape hint)) by apply escape_no_lt.
  cbn [app count starts_with N.eqb Pos.eqb andb Nat.add].
  reflexivity.
Qed.

(** C7. For a category without items (the list is empty or the key is
    absent) no item card is built, the grid is the placeholder card with
    the "no items yet" message, and the section holds exactly one card:
    that placeholder, inside its grid. *)
Theorem empty_category_placeholder (currency : pystr) (flag : bool) (idx : Z)
    (cat : Cat.t) :
  get (Cat.items cat) [] = [] ->
  render_cards currency flag (get (Cat.items cat) []) = []
  /\ render_grid (render_cards currency flag (get (Cat.items cat) [])) = EMPTY_GRID
  /\ (exists pre,
        render_section currency flag idx cat =
          pre ++ u "<div class=`grid`>
                " ++ EMPTY_GRID ++ u "
              </div>
            </section>")
  /\ count CARD_OPEN (render_section currency flag idx cat) = 1%nat
  /\ count CARD_OPEN EMPTY_GRID = 1%nat
  /\ occurs (u "فعلاً آیتمی ثبت نشده.") EMPTY_GRID = true.
Proof.
  intros H.
  split; [now rewrite H|]. split; [now rewrite H|].
  split; [|split; [|split; vm_compute; reflexivity]].
  - rewrite render_section_parts, H. cbn [render_cards map render_grid].
    match goal with
    | |- context [fstr ?P] => rewrite (fstr_split 6 P)
    end.
    unfold section. cbn [trim_ends trim_last firstn skipn].
    match goal with
    | |- context [fstr ?A ++ fstr _] => set (head := fstr A)
    end.
    unfold fstr. cbn [flat_map part_text].
    match goal with
    | |- context [_ ++ ?l ++ EMPTY_GRID ++ ?t ++ []] =>
        let n := eval vm_compute in (List.length l - 35)%nat in
        replace l with (firstn n l ++ skipn n l) by apply firstn_skipn;
        let v := eval vm_compute in (skipn n l) in change (skipn n l) with v;
        let w := eval vm_compute in t in change t with w
    end.
    read_literals. rewrite app_nil_r, <- app_assoc, app_assoc.
    eexists. reflexivity.
  - rewrite render_section_parts, H. cbn [render_cards map render_grid].
    apply empty_section_one_card, anchor_no_lt.
Qed.

Lemma empty_category_placeholder_witness :
  count CARD_OPEN
    (render_section (u "K") false 2 (Cat.mk (Some (VStr (u "<Tea>"))) None (Some [])))
  = 1%nat
  /\ render_grid (render_cards (u "K") false (get (Cat.items (Cat.mk None None None)) []))
     = EMPTY_GRID.
Proof.
  split.
  - apply (empty_category_placeholder (u "K") false 2
             (Cat.mk (Some (VStr (u "<Tea>"))) None (Some []))).
    reflexivity.
  - apply (empty_category_placeholder (u "K") false 1 (Cat.mk None None None)).
    reflexivity.
Defined.

(** * Further properties of the helpers *)

(** ** Digits *)

Lemma persian_digit_not_digit (c : N) : is_digit (persian_digit c) = false.
Proof.
  destruct (persian_digit_cases c) as [[Hd ->]|[Hd ->]]; [|exact Hd].
  unfold is_digit in *. apply andb_true_iff in Hd as [H1 H2].
  apply N.leb_le in H1, H2. apply andb_false_iff. right. apply N.leb_gt. lia.
Qed.

(** X1. [to_persian_digits] keeps the length of the text, leaves no
    standard digit in it, and converting twice is converting once. *)
Theorem to_persian_digits_result (s : pystr) :
  List.length (to_persian_digits s) = List.length s
  /\ forallb (fun c => negb (is_digit c)) (to_persian_digits s) = true
  /\ to_persian_digits (to_persian_digits s) = to_persian_digits s.
Proof.
  assert (H : forallb (fun c => negb (is_digit c)) (to_persian_digits s) = true).
  { induction s as [|c s IH]; [reflexivity|].
    rewrite to_persian_digits_cons. cbn [forallb].
    now rewrite persian_digit_not_digit, IH. }
  split; [apply length_map|]. split; [exact H|].
  now apply to_persian_digits_no_digit.
Qed.

(** ** Normalization *)

Lemma strip_idem (s : pystr) : strip (strip s) = strip s.
Proof.
  unfold strip at 1. rewrite (lstrip_fixed (strip s)) by apply strip_head.
  apply rstrip_strip.
Qed.

Lemma rstrip_length (s : pystr) : (List.length (rstrip s) <= List.length s)%nat.
Proof.
  induction s as [|c s IH]; [apply le_n|]. cbn [rstrip].
  destruct (rstrip s) as [|d r].
  - destruct (is_space c); cbn [List.length]; lia.
  - cbn [List.length] in *. lia.
Qed.

Lemma rstrip_last (r : pystr) (c : N) :
  rstrip (r ++ [c]) = r ++ [c] -> is_space c = false.
Proof.
  rewrite rstrip_app. cbn [rstrip]. destruct (is_space c); [|reflexivity].
  intros H. pose proof (rstrip_length r) as Hl. rewrite H, length_app in Hl.
  cbn [List.length] in Hl. lia.
Qed.

Lemma norm_text_stripped (x : value) : stripped (norm_text x).
Proof. destruct x; try reflexivity; apply strip_idem. Qed.

(** X2. The text [norm_text] returns is stripped: stripping or
    normalizing it again changes nothing, and it neither starts nor ends
    with a whitespace character. *)
Theorem norm_text_normal (x : value) :
  stripped (norm_text x)
  /\ norm_text (VStr (norm_text x)) = norm_text x
  /\ (forall c r, norm_text x = c :: r -> is_space c = false)
  /\ (forall r c, norm_text x = r ++ [c] -> is_space c = false).
Proof.
  split; [apply norm_text_stripped|]. split; [apply norm_text_stripped|]. split.
  - intros c r H. pose proof (norm_text_head x) as Hh. now rewrite H in Hh.
  - intros r c H. apply (rstrip_last r). rewrite <- H. apply rstrip_norm_text.
Qed.

Lemma norm_text_normal_witness :
  norm_text (VStr (u "  a b ")) = u "a b" /\ is_space (ch "b") = false.
Proof.
  split; [reflexivity|].
  destruct (norm_text_normal (VStr (u "  a b "))) as [_ [_ [_ H]]].
  apply (H (u "a ") (ch "b")). reflexivity.
Defined.

(** ** Prices *)

Lemma digits_if_nil (flag : bool) (s : pystr) : digits_if flag s = [] -> s = [].
Proof. destruct flag; [|auto]. destruct s; [reflexivity | discriminate]. Qed.

Lemma digits_if_strip (flag : bool) (s : pystr) :
  strip (digits_if flag s) = digits_if flag (strip s).
Proof.
  destruct flag; [|reflexivity]. symmetry. apply to_persian_digits_strip.
Qed.

(** X3. [fmt_price] never returns the empty text, and what it returns is
    stripped, whatever the price, the label and the flag. *)
Theorem fmt_price_shape (price : value) (currency : pystr) (flag : bool) :
  fmt_price price currency flag <> [] /\ stripped (fmt_price price currency flag).
Proof.
  destruct (norm_text price) as [|c0 r0] eqn:Hp.
  { rewrite fmt_price_dash by (left; exact Hp). split; [discriminate | reflexivity]. }
  destruct (eqb_str (norm_text price) (u "-")) eqn:Hd.
  { apply eqb_str_eq in Hd. rewrite fmt_price_dash by (right; exact Hd).
    split; [discriminate | reflexivity]. }
  assert (Hne : norm_text price <> []) by (rewrite Hp; discriminate).
  assert (Hnd : norm_text price <> u "-").
  { intros E. apply eqb_str_eq in E. congruence. }
  rewrite fmt_price_body by assumption.
  destruct (price_re (norm_text price)) eqn:Hre.
  - split.
    + intros E. apply digits_if_nil in E.
      rewrite strip_value_label in E;
        [| exact Hne | apply lstrip_fixed, norm_text_head | apply rstrip_norm_text].
      rewrite Hp in E. destruct (rstrip currency); discriminate.
    + unfold stripped. now rewrite digits_if_strip, strip_idem.
  - split.
    + intros E. apply digits_if_nil in E. contradiction.
    + unfold stripped. rewrite digits_if_strip. f_equal. apply norm_text_stripped.
Qed.

(** X4. With the numeral flag set the formatted price holds no standard
    digit, whether they came from the price or from the label. *)
Theorem fmt_price_flag_no_digit (price : value) (currency : pystr) :
  forallb (fun c => negb (is_digit c)) (fmt_price price currency true) = true.
Proof.
  destruct (norm_text price) as [|c0 r0] eqn:Hp.
  { rewrite fmt_price_dash by (left; exact Hp). reflexivity. }
  destruct (eqb_str (norm_text price) (u "-")) eqn:Hd.
  { apply eqb_str_eq in Hd. rewrite fmt_price_dash by (right; exact Hd).
    reflexivity. }
  rewrite fmt_price_body.
  - apply to_persian_digits_result.
  - rewrite Hp. discriminate.
  - intros E. apply eqb_str_eq in E. congruence.
Qed.

Lemma uint_text_all_digits (d : Decimal.uint) : forallb is_digit (uint_text d) = true.
Proof. induction d; simpl; auto. Qed.

Lemma skip_class_digits (s : pystr) : forallb is_digit s = true -> skip_class s = [].
Proof.
  induction s as [|c s IH]; [reflexivity|]. cbn [forallb skip_class].
  intros H. apply andb_true_iff in H as [Hc Hs].
  unfold price_class. fold (is_digit c). rewrite Hc. cbn [orb]. now apply IH.
Qed.

Lemma strip_str_int (z : Z) : strip (str_int z) = str_int z.
Proof.
  unfold strip. rewrite lstrip_fixed; [apply rstrip_str_int|].
  pose proof (str_int_chars z) as H. destruct (str_int z) as [|c r]; [exact I|].
  cbn [forallb] in H. apply andb_true_iff in H as [H _].
  now apply int_char_props in H.
Qed.

Lemma price_re_nonneg (z : Z) : (0 <= z)%Z -> price_re (str_int z) = true.
Proof.
  intros Hz. unfold str_int.
  assert (H : exists d, Z.to_int z = Decimal.Pos d /\ uint_text d <> []).
  { destruct z as [|p|p]; [| |lia].
    - exists (Decimal.D0 Decimal.Nil). split; [reflexivity | discriminate].
    - exists (Pos.to_uint p). split; [reflexivity|].
      apply uint_text_nonempty, Unsigned.to_uint_nonnil. }
  destruct H as [d [-> Hd]].
  pose proof (uint_text_all_digits d) as Hall.
  unfold price_re. rewrite (skip_class_digits _ Hall).
  destruct (uint_text d) as [|c r]; [contradiction|].
  cbn [forallb] in Hall. apply andb_true_iff in Hall as [Hc _].
  unfold price_class. fold (is_digit c). now rewrite Hc.
Qed.

Lemma str_int_negative (z : Z) :
  (z < 0)%Z -> exists c r, str_int z = ch "-" :: c :: r.
Proof.
  intros Hz. destruct z as [|p|p]; try lia. unfold str_int. cbn [Z.to_int].
  pose proof (uint_text_nonempty _ (Unsigned.to_uint_nonnil p)) as H.
  destruct (uint_text (Pos.to_uint p)) as [|c r]; [contradiction|]. now exists c, r.
Qed.

(** X5. For an integer price that [str] prints (here: of at most
    [INT_STR_DIGITS] digits): when it is not negative it gets the currency
    label (for a label that is not empty and has no whitespace at its
    end); when it is negative it never does and is shown as it is. *)
Theorem fmt_price_integer (z : Z) (currency : pystr) (flag : bool) :
  (Z.abs z < 10 ^ INT_STR_DIGITS)%Z ->
  ((0 <= z)%Z -> currency <> [] -> rstrip currency = currency ->
     fmt_price (VInt z) currency flag
     = digits_if flag (str_int z ++ u " " ++ currency))
  /\ ((z < 0)%Z -> fmt_price (VInt z) currency flag = digits_if flag (str_int z)).
Proof.
  intros _.
  assert (Hn : norm_text (VInt z) = str_int z) by apply strip_str_int.
  split.
  - intros Hz Hc Hr. rewrite fmt_price_numeric by (rewrite Hn; now apply price_re_nonneg).
    rewrite Hn, Hr. now destruct currency.
  - intros Hz. destruct (str_int_negative z Hz) as [c [r E]].
    rewrite fmt_price_body by (rewrite Hn, E; discriminate).
    rewrite Hn, E. reflexivity.
Qed.

Lemma fmt_price_integer_witness :
  fmt_price (VInt 0) (u "K") false = u "0 K"
  /\ fmt_price (VInt (-5)) (u "K") true = u "-۵".
Proof.
  split.
  - destruct (fmt_price_integer 0 (u "K") false) as [H _];
      [vm_compute; reflexivity|].
    rewrite H; [reflexivity | lia | discriminate | reflexivity].
  - destruct (fmt_price_integer (-5) (u "K") true) as [_ H];
      [vm_compute; reflexivity|].
    rewrite H; [reflexivity | lia].
Defined.

(** ** The currency label of a document *)

Lemma por_nonempty (a b : pystr) : b <> [] -> por a b <> [].
Proof. unfold por. destruct a; simpl; [auto | discriminate]. Qed.

(** X6. The currency label of a document is never empty and is stripped.
    It is the default label when the key is absent and when the field is
    null or blank, and the normalized field otherwise.  So in a document
    every price that matches the numeral pattern is formatted as the
    value, one space and that label, with the digits converted when the
    flag is set. *)
Theorem currency_of_normal (cafe : Cafe.t) (price : value) (flag : bool) :
  currency_of cafe <> []
  /\ stripped (currency_of cafe)
  /\ (Cafe.currency cafe = None -> currency_of cafe = u "هزار تومان")
  /\ (forall v, Cafe.currency cafe = Some v -> norm_text v = [] ->
        currency_of cafe = u "هزار تومان")
  /\ (forall v, Cafe.currency cafe = Some v -> norm_text v <> [] ->
        currency_of cafe = norm_text v)
  /\ (price_re (norm_text price) = true ->
      fmt_price price (currency_of cafe) flag
      = digits_if flag (norm_text price ++ u " " ++ currency_of cafe)).
Proof.
  assert (Hne : currency_of cafe <> []).
  { unfold currency_of. apply por_nonempty. vm_compute. discriminate. }
  assert (Hs : stripped (currency_of cafe)).
  { unfold currency_of, por. destruct (truthy _); [apply norm_text_stripped|].
    vm_compute. reflexivity. }
  split; [exact Hne|]. split; [exact Hs|].
  split; [|split; [|split]].
  - intros H. unfold currency_of. rewrite H. vm_compute. reflexivity.
  - intros v H Hv. unfold currency_of. rewrite H. cbn [get]. now rewrite Hv.
  - intros v H Hv. unfold currency_of, por. rewrite H. cbn [get].
    apply truthy_true in Hv. now rewrite Hv.
  - intros H. rewrite fmt_price_numeric by exact H.
    assert (Hr : rstrip (currency_of cafe) = currency_of cafe).
    { unfold stripped in Hs. rewrite <- Hs. apply rstrip_strip. }
    rewrite Hr. now destruct (currency_of cafe).
Qed.

Lemma currency_of_normal_witness :
  currency_of Cafe.empty = u "هزار تومان"
  /\ currency_of (Cafe.mk None None None None None None None None (Some (VStr (u "  "))))
     = u "هزار تومان"
  /\ currency_of (Cafe.mk None None None None None None None None (Some (VStr (u " K2 "))))
     = u "K2"
  /\ fmt_price (VInt 5)
       (currency_of (Cafe.mk None None None None None None None None (Some VNone)))
       true
     = u "۵ هزار تومان".
Proof.
  split; [|split; [|split]].
  - apply (currency_of_normal Cafe.empty VNone false). reflexivity.
  - destruct (currency_of_normal
                (Cafe.mk None None None None None None None None (Some (VStr (u "  "))))
                VNone false) as [_ [_ [_ [H _]]]].
    apply (H (VStr (u "  "))); reflexivity.
  - destruct (currency_of_normal
                (Cafe.mk None None None None None None None None (Some (VStr (u " K2 "))))
                VNone false) as [_ [_ [_ [_ [H _]]]]].
    rewrite (H (VStr (u " K2 "))); [reflexivity | reflexivity | vm_compute; discriminate].
  - destruct (currency_of_normal
                (Cafe.mk None None None None None None None None (Some VNone))
                (VInt 5) true) as [_ [_ [_ [_ [_ H]]]]].
    rewrite H by (vm_compute; reflexivity). vm_compute. reflexivity.
Defined.

(** ** Anchors *)

Lemma uint_text_inj (d e : Decimal.uint) : uint_text d = uint_text e -> d = e.
Proof.
  revert e; induction d; intros e H; destruct e; cbn [uint_text] in H;
    try discriminate; try reflexivity;
    injection H as H; f_equal; now apply IHd.
Qed.

Lemma uint_text_no_minus (d : Decimal.uint) (r : pystr) :
  uint_text d <> ch "-" :: r.
Proof.
  pose proof (uint_text_all_digits d) as H. intros E. rewrite E in H.
  cbn [forallb] in H. discriminate.
Qed.

Lemma str_int_inj (a b : Z) : str_int a = str_int b -> a = b.
Proof.
  unfold str_int. intros H. apply DecimalZ.to_int_inj.
  destruct (Z.to_int a) as [d|d], (Z.to_int b) as [e|e].
  - f_equal. now apply uint_text_inj.
  - now apply uint_text_no_minus in H.
  - symmetry in H. now apply uint_text_no_minus in H.
  - injection H as H. f_equal. now apply uint_text_inj.
Qed.

(** X7. Categories at different positions get different anchors. *)
Theorem anchor_distinct (i j : Z) :
  i <> j -> fstr (anchor_of i) <> fstr (anchor_of j).
Proof.
  intros Hij H. apply Hij. rewrite !anchor_text in H. apply app_inv_head in H.
  now apply str_int_inj.
Qed.

Lemma anchor_distinct_witness : fstr (anchor_of 1) <> fstr (anchor_of 11).
Proof. apply (anchor_distinct 1 11). lia. Defined.

(** ** URL detection *)

Lemma lstrip_map (f : N -> N) (s : pystr) :
  (forall c, is_space (f c) = is_space c) -> lstrip (map f s) = map f (lstrip s).
Proof.
  intros Hf. induction s as [|c s IH]; [reflexivity|].
  cbn [map lstrip]. rewrite Hf. destruct (is_space c); [exact IH | reflexivity].
Qed.

Lemma rstrip_map (f : N -> N) (s : pystr) :
  (forall c, is_space (f c) = is_space c) -> rstrip (map f s) = map f (rstrip s).
Proof.
  intros Hf. induction s as [|c s IH]; [reflexivity|].
  cbn [map rstrip]. rewrite IH, Hf.
  destruct (rstrip s); [now destruct (is_space c) | reflexivity].
Qed.

Lemma ascii_upper_space (c : N) : is_space (ascii_upper c) = is_space c.
Proof.
  unfold ascii_upper.
  destruct (N.leb_spec 97 c); destruct (N.leb_spec c 122); cbn [andb];
    try reflexivity.
  unfold is_space. split_eqb; reflexivity.
Qed.

Lemma strip_upper (s : pystr) : strip (map ascii_upper s) = map ascii_upper (strip s).
Proof.
  unfold strip.
  now rewrite lstrip_map, rstrip_map by apply ascii_upper_space.
Qed.

Lemma re_letter_upper (p c : N) :
  97 <= p <= 122 -> re_letter_i p (ascii_upper c) = re_letter_i p c.
Proof.
  intros Hp. unfold re_letter_i, ascii_upper, ch.
  cbn [N_of_ascii N_of_digits N.add N.mul Pos.add Pos.mul Pos.succ].
  destruct (N.leb_spec 97 c); destruct (N.leb_spec c 122); cbn [andb];
    try reflexivity.
  split_eqb; reflexivity.
Qed.

Lemma eqb_upper (k c : N) :
  k < 65 -> (k =? ascii_upper c) = (k =? c).
Proof.
  intros Hk. unfold ascii_upper.
  destruct (N.leb_spec 97 c); destruct (N.leb_spec c 122); cbn [andb];
    try reflexivity.
  split_eqb; reflexivity.
Qed.

Lemma scheme_end_upper (r : pystr) :
  starts_with (u "://") (map ascii_upper r) = starts_with (u "://") r.
Proof.
  read_literals.
  destruct r as [|a [|b [|c r]]]; cbn [map starts_with];
    rewrite ?eqb_upper by lia; reflexivity.
Qed.

Lemma url_re_upper (s : pystr) : url_re (map ascii_upper s) = url_re s.
Proof.
  destruct s as [|c1 [|c2 [|c3 [|c4 r]]]]; try reflexivity.
  cbn [map url_re]. unfold ch.
  cbn [N_of_ascii N_of_digits N.add N.mul Pos.add Pos.mul Pos.succ].
  rewrite !re_letter_upper by lia. rewrite scheme_end_upper.
  destruct r as [|c5 r]; [reflexivity|]. cbn [map].
  now rewrite re_letter_upper, scheme_end_upper by lia.
Qed.

Lemma re_letter_true (p c : N) :
  97 <= p <= 122 -> re_letter_i p c = true ->
  ascii_upper c = p - 32 \/ (p = 115 /\ c = 383).
Proof.
  intros Hp. unfold re_letter_i, ascii_upper, ch.
  cbn [N_of_ascii N_of_digits N.add N.mul Pos.add Pos.mul Pos.succ].
  intros H. rewrite !orb_true_iff, andb_true_iff, !N.eqb_eq in H.
  destruct (N.leb_spec 97 c); destruct (N.leb_spec c 122); cbn [andb]; lia.
Qed.

Lemma map_upper_scheme (r rest : pystr) :
  r = u "://" ++ rest -> map ascii_upper r = u "://" ++ map ascii_upper rest.
Proof. intros ->. reflexivity. Qed.

(** X8. [is_url] ignores whitespace around the value and the case of
    ASCII letters, and it accepts exactly the values that, stripped and
    put in upper case, begin with [HTTP://] or [HTTPS://], or with
    [HTTP], a long s (U+017F) and [://]. *)
Theorem is_url_accepts (s : pystr) :
  is_url (strip s) = is_url s
  /\ is_url (map ascii_upper s) = is_url s
  /\ (is_url s = true <->
      exists rest,
        map ascii_upper (strip s) = u "HTTP://" ++ rest
        \/ map ascii_upper (strip s) = u "HTTPS://" ++ rest
        \/ map ascii_upper (strip s) = u "HTTPſ://" ++ rest).
Proof.
  split; [|split].
  - unfold is_url. now rewrite strip_idem.
  - unfold is_url. now rewrite strip_upper, url_re_upper.
  - unfold is_url. split.
    + intros H. destruct (strip s) as [|c1 [|c2 [|c3 [|c4 r]]]]; try discriminate.
      cbn [url_re] in H. rewrite !andb_true_iff in H.
      destruct H as [[[[H1 H2] H3] H4] H5].
      apply re_letter_true in H1, H2, H3, H4;
        try (vm_compute; split; discriminate).
      destruct H1 as [H1|[H1 _]]; [|discriminate].
      destruct H2 as [H2|[H2 _]]; [|discriminate].
      destruct H3 as [H3|[H3 _]]; [|discriminate].
      destruct H4 as [H4|[H4 _]]; [|discriminate].
      cbn [map]. rewrite H1, H2, H3, H4.
      apply orb_true_iff in H5 as [H5|H5].
      * destruct r as [|c5 r]; [discriminate|].
        apply andb_true_iff in H5 as [H5 H6].
        apply starts_with_split in H6 as [rest H6].
        apply map_upper_scheme in H6.
        apply re_letter_true in H5; [|vm_compute; split; discriminate].
        exists (map ascii_upper rest). cbn [map]. rewrite H6.
        destruct H5 as [H5|[_ H5]]; [right; left | right; right].
        -- rewrite H5. reflexivity.
        -- subst c5. reflexivity.
      * apply starts_with_split in H5 as [rest H5].
        apply map_upper_scheme in H5.
        exists (map ascii_upper rest). left. rewrite H5. reflexivity.
    + intros [rest H]. rewrite <- url_re_upper.
      destruct H as [H | [H | H]]; rewrite H; reflexivity.
Qed.

Lemma is_url_accepts_witness : is_url (u "  hTtPs://t.me/cafe ") = true.
Proof.
  destruct (is_url_accepts (u "  hTtPs://t.me/cafe ")) as [_ [_ [_ H]]].
  apply H. exists (u "T.ME/CAFE"). right. left. reflexivity.
Defined.

(** ** Placeholders of the page *)

(** Cuts the literal [l] after its first [n] characters. *)
Ltac cut_literal l n :=
  idtac;
  let a := eval vm_compute in (firstn n l) in
  let b := eval vm_compute in (skipn n l) in
  change l with (a ++ b).

(** X9. The address badge shows the placeholder text when the address is
    absent, null or blank; otherwise it shows the address escaped twice,
    once when it is read and once in the template. *)
Theorem address_badge (data : Data.t) (page_title : pystr) (flag : bool)
    (generated_at : pystr) :
  let cafe := get (Data.cafe data) Cafe.empty in
  let a := norm_text (get (Cafe.address cafe) (VStr [])) in
  exists pre post,
    render_html data page_title flag generated_at =
      pre ++ u "<div class=`badge`>📍 <span>"
        ++ (if truthy a then escape (escape a) else NO_ADDRESS)
        ++ u "</span></div>" ++ post.
Proof.
  intros cafe a. unfold render_html. fold cafe. fold a.
  match goal with
  | |- exists pre post, fstr ?P = _ =>
      rewrite (fstr_at P 5 _ eq_refl);
      rewrite (fstr_at (firstn 5 P) 4 _ eq_refl);
      rewrite (fstr_at (skipn 6 P) 0 _ eq_refl)
  end.
  unfold page. cbn [firstn skipn part_text]. rewrite escape_truthy.
  change (fstr []) with (@nil N). rewrite !app_nil_r. cbn [app].
  lazymatch goal with
  | |- context [(_ ++ u ?l) ++ _ ++ u ?m ++ _] =>
      let n := eval vm_compute in (List.length (u l) - 27)%nat in
      cut_literal (u l) n; cut_literal (u m) constr:(13%nat)
  end.
  read_literals. rewrite <- !app_assoc.
  match goal with
  | |- exists pre post, ?A ++ ?B ++ ?R = _ => exists (A ++ B)
  end.
  eexists. rewrite <- app_assoc. reflexivity.
Qed.

(** X10. When the phone is absent, null or blank the contact block shows
    the placeholder row in the place of the phone row. *)
Theorem phone_placeholder (data : Data.t) (page_title : pystr) (flag : bool)
    (generated_at : pystr) :
  let cafe := get (Data.cafe data) Cafe.empty in
  norm_text (get (Cafe.phone cafe) (VStr [])) = [] ->
  exists pre post,
    render_html data page_title flag generated_at =
      pre ++ u "<h3>اطلاعات تماس</h3>
          " ++ NO_PHONE_ROW ++ post.
Proof.
  intros cafe Hp. unfold render_html. fold cafe. rewrite Hp.
  lazymatch goal with
  | |- exists pre post, fstr ?P = _ =>
      rewrite (fstr_at P 15 _ eq_refl);
      rewrite (fstr_at (firstn 15 P) 14 _ eq_refl)
  end.
  unfold page. cbn [firstn skipn part_text]. rewrite !escape_nil. cbn [truthy].
  change (fstr []) with (@nil N). rewrite !app_nil_r.
  lazymatch goal with
  | |- context [(_ ++ u ?l) ++ NO_PHONE_ROW ++ _] =>
      let n := eval vm_compute in (List.length (u l) - 32)%nat in
      cut_literal (u l) n
  end.
  read_literals. rewrite <- !app_assoc.
  lazymatch goal with
  | |- exists pre post, ?A ++ ?B ++ ?R = _ => exists (A ++ B)
  end.
  eexists. rewrite <- app_assoc. reflexivity.
Qed.

Lemma phone_placeholder_witness :
  exists pre post,
    render_html (Data.mk None None) (u "Menu") false (u "2026-01-01 10:00") =
      pre ++ u "<h3>اطلاعات تماس</h3>
          " ++ NO_PHONE_ROW ++ post.
Proof.
  apply (phone_placeholder (Data.mk None None) (u "Menu") false
           (u "2026-01-01 10:00")).
  reflexivity.
Defined.

(** ** Item cards *)

Lemma render_card_parts (currency : pystr) (flag : bool) (it : Item.t) :
  render_card currency flag it =
    fstr (trim_ends (card (card_thumb it) (card_name it)
                       (card_price_html currency flag it) (card_desc_html it))).
Proof.
  unfold render_card, card.
  rewrite strip_template by (vm_compute; discriminate).
  unfold card_thumb, has_image, card_desc_html, has_desc, card_price_html, card_name.
  rewrite escape_truthy. cbn [trim_ends trim_last]. reflexivity.
Qed.

Lemma card_name_no_lt (it : Item.t) (c : N) : In c (card_name it) -> c <> ch "<".
Proof.
  unfold card_name, por. destruct (truthy _); [apply escape_no_lt|].
  intros H E. subst c. vm_compute in H.
  repeat (destruct H as [H|H]; [discriminate|]). exact H.
Qed.

(** Evaluates the closed texts of a goal about [count]. *)
Ltac read_texts :=
  repeat match goal with
  | |- context [lstrip (u ?s)] =>
      let v := eval vm_compute in (lstrip (u s)) in change (lstrip (u s)) with v
  | |- context [rstrip (u ?s)] =>
      let v := eval vm_compute in (rstrip (u s)) in change (rstrip (u s)) with v
  end;
  try (let v := eval vm_compute in EMPTY_GRID in change EMPTY_GRID with v);
  try (let v := eval vm_compute in CARD_OPEN in change CARD_OPEN with v);
  try (let v := eval vm_compute in IMG_OPEN in change IMG_OPEN with v);
  try (let v := eval vm_compute in DESC_OPEN in change DESC_OPEN with v);
  try (let v := eval vm_compute in NL in change NL with v);
  read_literals.

(** Counts through literal text and skips the values without [<]. *)
Ltac count_through :=
  cbn [app count starts_with N.eqb Pos.eqb andb Nat.add];
  repeat (rewrite count_skip
            by first [ apply escape_no_lt | apply card_name_no_lt
                     | apply anchor_no_lt | assumption ];
          cbn [app count starts_with N.eqb Pos.eqb andb Nat.add]).

Lemma card_counts (currency : pystr) (flag : bool) (it : Item.t) (rest : pystr) :
  count CARD_OPEN (render_card currency flag it ++ rest) = S (count CARD_OPEN rest)
  /\ count IMG_OPEN (render_card currency flag it ++ rest)
     = ((if has_image it then 1 else 0) + count IMG_OPEN rest)%nat
  /\ count DESC_OPEN (render_card currency flag it ++ rest)
     = ((if has_desc it then 1 else 0) + count DESC_OPEN rest)%nat.
Proof.
  rewrite render_card_parts. unfold card, card_thumb, card_desc_html, card_price_html.
  cbn [trim_ends trim_last].
  set (name := card_name it).
  assert (Hname : forall c, In c name -> c <> ch "<") by apply card_name_no_lt.
  clearbody name.
  destruct (has_image it); destruct (has_desc it);
    unfold thumb_img, thumb_icon, desc_div, fstr; cbn [flat_map part_text];
    rewrite ?app_nil_r, <- ?app_assoc; read_texts;
    (split; [|split]); count_through; reflexivity.
Qed.

Lemma count_NL (pat r : pystr) :
  hd 0 pat = ch "<" -> count pat (NL ++ r) = count pat r.
Proof.
  destruct pat as [|p pat]; cbn [hd]; [discriminate|]. intros ->.
  apply count_skip. intros c [<-|[]]. discriminate.
Qed.

Lemma grid_counts (currency : pystr) (flag : bool) (it : Item.t)
    (items : list Item.t) (rest : pystr) :
  count CARD_OPEN (render_grid (render_cards currency flag (it :: items)) ++ rest)
  = (List.length (it :: items) + count CARD_OPEN rest)%nat
  /\ count IMG_OPEN (render_grid (render_cards currency flag (it :: items)) ++ rest)
     = (List.length (filter has_image (it :: items)) + count IMG_OPEN rest)%nat.
Proof.
  revert it. induction items as [|it2 items IH]; intros it.
  - cbn [render_cards map render_grid join filter List.length].
    destruct (card_counts currency flag it rest) as [H1 [H2 _]].
    rewrite H1, H2. split; [reflexivity|]. now destruct (has_image it).
  - specialize (IH it2). destruct IH as [IH1 IH2].
    change (render_grid (render_cards currency flag (it :: it2 :: items)))
      with (render_card currency flag it ++ NL
              ++ render_grid (render_cards currency flag (it2 :: items))).
    rewrite <- !app_assoc.
    destruct (card_counts currency flag it
                (NL ++ render_grid (render_cards currency flag (it2 :: items)) ++ rest))
      as [H1 [H2 _]].
    rewrite H1, H2. rewrite !count_NL by reflexivity.
    rewrite IH1, IH2. cbn [filter List.length].
    split; [reflexivity|]. now destruct (has_image it).
Qed.

(** X11. A section holds one card per item of its category, and the
    placeholder card alone when there is none; it holds one image element
    per item whose image field is an http(s) URL and no other, so an image
    that is not such a URL is never linked. *)
Theorem section_cards (currency : pystr) (flag : bool) (idx : Z) (cat : Cat.t) :
  let items := get (Cat.items cat) [] in
  count CARD_OPEN (render_section currency flag idx cat)
  = Nat.max 1 (List.length items)
  /\ count IMG_OPEN (render_section currency flag idx cat)
     = List.length (filter has_image items).
Proof.
  intros items. rewrite render_section_parts. fold items.
  unfold section. cbn [trim_ends trim_last].
  unfold fstr. cbn [flat_map part_text]. rewrite ?app_nil_r.
  destruct items as [|it items].
  - cbn [render_cards map render_grid]. read_texts.
    split; count_through; reflexivity.
  - set (grid := render_grid (render_cards currency flag (it :: items))).
    read_texts. split; count_through; subst grid.
    + rewrite (proj1 (grid_counts currency flag it items _)).
      cbn [app count starts_with N.eqb Pos.eqb andb Nat.add List.length Nat.max].
      now rewrite Nat.add_0_r.
    + rewrite (proj2 (grid_counts currency flag it items _)).
      cbn [app count starts_with N.eqb Pos.eqb andb Nat.add].
      now rewrite Nat.add_0_r.
Qed.

(** X12. A card holds a description block exactly when the description
    of the item is not blank, and its text is the escaped description. *)
Theorem card_description (currency : pystr) (flag : bool) (it : Item.t) :
  count DESC_OPEN (render_card currency flag it)
  = (if has_desc it then 1 else 0)%nat
  /\ (has_desc it = true ->
      exists pre post,
        render_card currency flag it =
          pre ++ DESC_OPEN ++ escape (norm_text (get (Item.desc it) (VStr [])))
            ++ u "</div>" ++ post).
Proof.
  split.
  - rewrite <- (app_nil_r (render_card currency flag it)).
    destruct (card_counts currency flag it []) as [_ [_ H]]. rewrite H.
    cbn [count]. now rewrite Nat.add_0_r.
  - intros Hd. rewrite render_card_parts. unfold card. cbn [trim_ends trim_last].
    lazymatch goal with
    | |- exists pre post, fstr ?P = _ => rewrite (fstr_at P 7 _ eq_refl)
    end.
    cbn [part_text firstn skipn]. unfold card_desc_html. rewrite Hd.
    unfold desc_div, fstr at 2. cbn [flat_map part_text]. rewrite app_nil_r.
    unfold DESC_OPEN. rewrite <- !app_assoc. do 2 eexists. reflexivity.
Qed.

Lemma card_description_witness :
  exists pre post,
    render_card (u "K") false (Item.mk None (Some (VStr (u "a<b"))) None None None) =
      pre ++ DESC_OPEN ++ u "a&lt;b" ++ u "</div>" ++ post.
Proof.
  destruct (card_description (u "K") false
              (Item.mk None (Some (VStr (u "a<b"))) None None None)) as [_ H].
  destruct H as [pre [post H]]; [reflexivity|].
  exists pre, post. rewrite H. reflexivity.
Defined.

(** Cuts the literal [l] in three: its first [n] characters, the next
    [m], and the rest. *)
Ltac cut_literal3 l n m :=
  idtac;
  let a := eval vm_compute in (firstn n l) in
  let b := eval vm_compute in (firstn m (skipn n l)) in
  let c := eval vm_compute in (skipn m (skipn n l)) in
  change l with (a ++ b ++ c).

Lemma app_prefix2 (a b r x : pystr) : r = x -> a ++ b ++ r = (a ++ b) ++ x.
Proof. intros ->. now rewrite <- app_assoc. Qed.

Lemma app_prefix3 (a b c r x : pystr) :
  r = x -> a ++ b ++ c ++ r = (a ++ b ++ c) ++ x.
Proof. intros ->. now rewrite <- !app_assoc. Qed.

Lemma card_text (currency : pystr) (flag : bool) (it : Item.t) :
  render_card currency flag it =
    fstr (firstn 1 (trim_ends (card [] [] [] []))) ++ card_thumb it
      ++ fstr (firstn 1 (skipn 2 (card [] [] [] []))) ++ card_name it
      ++ fstr (firstn 1 (skipn 4 (card [] [] [] [])))
      ++ card_price_html currency flag it
      ++ fstr (firstn 1 (skipn 6 (card [] [] [] []))) ++ card_desc_html it
      ++ fstr (skipn 8 (trim_ends (card [] [] [] []))).
Proof.
  rewrite render_card_parts. unfold card. cbn [trim_ends trim_last firstn skipn].
  unfold fstr. cbn [flat_map part_text]. now rewrite !app_nil_r.
Qed.

(** X13. A card shows the name of the item in its heading, or the
    fallback "بدون نام" when the name is absent, null or blank, and next
    to it the escaped formatted price, which is "-" for an item without
    price. *)
Theorem card_name_price (currency : pystr) (flag : bool) (it : Item.t) :
  (exists pre mid post,
      render_card currency flag it =
        pre ++ u "<h4>" ++ card_name it ++ u "</h4>" ++ mid
          ++ u "<div class=`price`>"
          ++ escape (fmt_price (get (Item.price it) (VStr [])) currency flag)
          ++ u "</div>" ++ post)
  /\ (norm_text (get (Item.name it) (VStr [])) = [] -> card_name it = NO_NAME)
  /\ (norm_text (get (Item.name it) (VStr [])) <> [] ->
      card_name it = escape (norm_text (get (Item.name it) (VStr []))))
  /\ (Item.price it = None ->
      escape (fmt_price (get (Item.price it) (VStr [])) currency flag) = u "-").
Proof.
  split; [|split; [|split]].
  - rewrite card_text. unfold card, card_price_html.
    cbn [trim_ends trim_last firstn skipn]. unfold fstr.
    cbn [flat_map part_text]. rewrite !app_nil_r.
    lazymatch goal with
    | |- context [u ?l1 ++ card_name it ++ u ?l2 ++ escape _ ++ u ?l3 ++ _] =>
        let n := eval vm_compute in (List.length (u l1) - 4)%nat in
        let m := eval vm_compute in (List.length (u l2) - 24)%nat in
        cut_literal (u l1) n; cut_literal3 (u l2) constr:(5%nat) m;
        cut_literal (u l3) constr:(6%nat)
    end.
    read_texts. rewrite <- !app_assoc.
    do 3 eexists. apply app_prefix3. reflexivity.
  - intros H. unfold card_name, por. now rewrite escape_truthy, H.
  - intros H. unfold card_name, por. apply truthy_true in H.
    now rewrite escape_truthy, H.
  - intros ->. reflexivity.
Qed.

Lemma card_name_price_witness :
  card_name (Item.mk (Some (VStr (u " "))) None None None None) = NO_NAME
  /\ card_name (Item.mk (Some (VStr (u "a&b"))) None None None None) = u "a&amp;b"
  /\ escape (fmt_price (get (Item.price (Item.mk None None None None None)) (VStr []))
               (u "K") true) = u "-".
Proof.
  split; [|split].
  - apply (card_name_price (u "K") false
             (Item.mk (Some (VStr (u " "))) None None None None)).
    reflexivity.
  - destruct (card_name_price (u "K") false
                (Item.mk (Some (VStr (u "a&b"))) None None None None))
      as [_ [_ [H _]]].
    rewrite H by (vm_compute; discriminate). reflexivity.
  - apply (card_name_price (u "K") true (Item.mk None None None None None)).
    reflexivity.
Defined.

(** X14. The thumbnail of a card is an image element whose source is the
    escaped image URL and whose alternative text is the name shown, when
    the image field is an http(s) URL; otherwise it is the escaped icon,
    the default icon when the key is absent. *)
Theorem card_thumbnail (currency : pystr) (flag : bool) (it : Item.t) :
  (exists post,
      render_card currency flag it =
        u "<div class=`item`>
                  " ++ card_thumb it ++ post)
  /\ (has_image it = true ->
      card_thumb it =
        u "<div class=`thumb`><img src=`"
          ++ escape (norm_text (get (Item.img it) (VStr [])))
          ++ u "` alt=`" ++ card_name it ++ u "`></div>")
  /\ (has_image it = false ->
      card_thumb it =
        u "<div class=`thumb`>"
          ++ escape (norm_text (get (Item.icon it) (VStr (u "☕"))))
          ++ u "</div>")
  /\ (has_image it = false -> Item.icon it = None ->
      card_thumb it = u "<div class=`thumb`>☕</div>").
Proof.
  split; [|split; [|split]].
  - rewrite card_text. eexists. f_equal.
  - intros H. unfold card_thumb. rewrite H. unfold thumb_img, fstr.
    cbn [flat_map part_text]. now rewrite app_nil_r.
  - intros H. unfold card_thumb. rewrite H. unfold thumb_icon, fstr.
    cbn [flat_map part_text]. now rewrite app_nil_r.
  - intros H Hi. unfold card_thumb. rewrite H, Hi. reflexivity.
Qed.

Lemma card_thumbnail_witness :
  card_thumb (Item.mk None None None (Some (VStr (u "a.png"))) None)
    = u "<div class=`thumb`>☕</div>"
  /\ card_thumb (Item.mk None None None (Some (VStr (u "http://x/a.png"))) None)
    = u "<div class=`thumb`><img src=`http://x/a.png` alt=`بدون نام`></div>".
Proof.
  split.
  - apply (card_thumbnail (u "K") false
             (Item.mk None None None (Some (VStr (u "a.png"))) None));
      reflexivity.
  - destruct (card_thumbnail (u "K") false
                (Item.mk None None None (Some (VStr (u "http://x/a.png"))) None))
      as [_ [H _]].
    rewrite H by reflexivity. reflexivity.
Defined.

(** X15. The label of the pill of a category and the heading of its
    section are the same text, and the section shows the escaped hint
    under the heading. *)
Theorem pill_label_is_heading (currency : pystr) (flag : bool) (idx : Z)
    (cat : Cat.t) :
  let label :=
    escape (norm_text (get (Cat.title cat) (VStr (fstr (default_title idx))))) in
  render_pill idx cat =
    u "<a class=`pill` href=`#" ++ fstr (anchor_of idx) ++ u "`><strong>"
      ++ label ++ u "</strong></a>"
  /\ exists pre post,
       render_section currency flag idx cat =
         pre ++ u "<h2>" ++ label ++ u "</h2>
                <div class=`hint`>"
           ++ escape (norm_text (get (Cat.hint cat) (VStr []))) ++ u "</div>" ++ post.
Proof.
  intros label. split.
  - rewrite render_pill_text, anchor_text, <- !app_assoc. reflexivity.
  - rewrite render_section_parts. fold label. unfold section.
    cbn [trim_ends trim_last]. unfold fstr. cbn [flat_map part_text].
    rewrite !app_nil_r.
    lazymatch goal with
    | |- context [u ?l1 ++ label ++ u ?l2 ++ escape _ ++ u ?l3 ++ _] =>
        let n := eval vm_compute in (List.length (u l1) - 4)%nat in
        cut_literal (u l1) n; cut_literal (u l3) constr:(6%nat)
    end.
    read_texts. rewrite <- !app_assoc.
    do 2 eexists. apply app_prefix3. reflexivity.
Qed.

(** ** Sections and pills of the page *)

Ltac read_pat P := let v := eval vm_compute in P in change P with v.
Ltac fold_pat P := let v := eval vm_compute in P in change v with P.

Ltac count_through_text :=
  cbn [app count starts_with N.eqb Pos.eqb andb Nat.add];
  repeat (rewrite count_skip
            by first [ apply escape_no_lt | apply card_name_no_lt
                     | apply anchor_no_lt | apply str_int_no_lt | assumption ];
          cbn [app count starts_with N.eqb Pos.eqb andb Nat.add]).

Lemma count_join {A : Type} (pat sep rest : pystr) (f : A -> pystr) (k : nat)
    (l : list A) :
  hd 0 pat = ch "<" ->
  (forall c, In c sep -> c <> ch "<") ->
  (forall x r, count pat (f x ++ r) = (k + count pat r)%nat) ->
  count pat (join sep (map f l) ++ rest) = (k * List.length l + count pat rest)%nat.
Proof.
  intros Hp Hsep Hf. destruct pat as [|p pat]; [discriminate|].
  cbn [hd] in Hp. subst p.
  induction l as [|x l IH]; [cbn [map join app List.length]; lia|].
  destruct l as [|y l].
  - cbn [map join List.length]. rewrite Hf. lia.
  - change (join sep (map f (x :: y :: l)))
      with (f x ++ sep ++ join sep (map f (y :: l))).
    rewrite <- !app_assoc, Hf, count_skip by exact Hsep.
    rewrite IH. cbn [List.length]. lia.
Qed.

Lemma NL_no_lt (c : N) : In c NL -> c <> ch "<".
Proof. intros [<-|[]]. discriminate. Qed.

Lemma card_no_section (currency : pystr) (flag : bool) (it : Item.t) (rest : pystr) :
  count SECTION_OPEN (render_card currency flag it ++ rest) = count SECTION_OPEN rest
  /\ count PILL_OPEN (render_card currency flag it ++ rest) = count PILL_OPEN rest.
Proof.
  rewrite render_card_parts. unfold card, card_thumb, card_desc_html, card_price_html.
  cbn [trim_ends trim_last].
  set (name := card_name it).
  assert (Hname : forall c, In c name -> c <> ch "<") by apply card_name_no_lt.
  clearbody name.
  destruct (has_image it); destruct (has_desc it);
    unfold thumb_img, thumb_icon, desc_div, fstr; cbn [flat_map part_text];
    rewrite ?app_nil_r, <- ?app_assoc; read_texts;
    read_pat SECTION_OPEN; read_pat PILL_OPEN;
    split; count_through_text; reflexivity.
Qed.

Lemma grid_no_section (currency : pystr) (flag : bool) (items : list Item.t)
    (rest : pystr) :
  count SECTION_OPEN (render_grid (render_cards currency flag items) ++ rest)
  = count SECTION_OPEN rest
  /\ count PILL_OPEN (render_grid (render_cards currency flag items) ++ rest)
     = count PILL_OPEN rest.
Proof.
  destruct items as [|it items].
  - cbn [render_cards map render_grid]. read_texts.
    read_pat SECTION_OPEN; read_pat PILL_OPEN.
    split; count_through_text; reflexivity.
  - change (render_grid (render_cards currency flag (it :: items)))
      with (join NL (map (render_card currency flag) (it :: items))).
    split.
    + rewrite (count_join SECTION_OPEN NL rest _ 0);
        [reflexivity | reflexivity | apply NL_no_lt |].
      intros x r. exact (proj1 (card_no_section currency flag x r)).
    + rewrite (count_join PILL_OPEN NL rest _ 0);
        [reflexivity | reflexivity | apply NL_no_lt |].
      intros x r. exact (proj2 (card_no_section currency flag x r)).
Qed.

Lemma section_one_section (currency : pystr) (flag : bool) (idx : Z) (cat : Cat.t)
    (rest : pystr) :
  count SECTION_OPEN (render_section currency flag idx cat ++ rest)
  = S (count SECTION_OPEN rest)
  /\ count PILL_OPEN (render_section currency flag idx cat ++ rest)
     = count PILL_OPEN rest.
Proof.
  rewrite render_section_parts. unfold section. cbn [trim_ends trim_last].
  unfold fstr. cbn [flat_map part_text]. rewrite ?app_nil_r, <- ?app_assoc.
  set (grid := render_grid _).
  read_texts. read_pat SECTION_OPEN. read_pat PILL_OPEN.
  split; count_through_text; subst grid.
  - fold_pat SECTION_OPEN.
    rewrite (proj1 (grid_no_section currency flag _ _)).
    read_pat SECTION_OPEN. count_through_text. reflexivity.
  - fold_pat PILL_OPEN.
    rewrite (proj2 (grid_no_section currency flag _ _)).
    read_pat PILL_OPEN. count_through_text. reflexivity.
Qed.

Lemma pill_one_pill (idx : Z) (cat : Cat.t) (rest : pystr) :
  count SECTION_OPEN (render_pill idx cat ++ rest) = count SECTION_OPEN rest
  /\ count PILL_OPEN (render_pill idx cat ++ rest) = S (count PILL_OPEN rest).
Proof.
  rewrite render_pill_text, <- !app_assoc.
  read_texts. read_pat SECTION_OPEN. read_pat PILL_OPEN.
  split; count_through_text; reflexivity.
Qed.

Lemma link_no_section (label val rest : pystr) :
  count SECTION_OPEN (link_or_text label val ++ rest) = count SECTION_OPEN rest
  /\ count PILL_OPEN (link_or_text label val ++ rest) = count PILL_OPEN rest.
Proof.
  destruct val as [|c val]; [split; reflexivity|].
  rewrite link_or_text_rows by discriminate.
  destruct (is_url (c :: val)); rewrite <- !app_assoc;
    read_texts; read_pat SECTION_OPEN; read_pat PILL_OPEN;
    split; count_through_text; reflexivity.
Qed.

Lemma pills_counts (menu : list Cat.t) (rest : pystr) :
  count SECTION_OPEN (join NL (cat_pills menu) ++ rest) = count SECTION_OPEN rest
  /\ count PILL_OPEN (join NL (cat_pills menu) ++ rest)
     = (List.length menu + count PILL_OPEN rest)%nat.
Proof.
  unfold cat_pills. split.
  - rewrite (count_join SECTION_OPEN NL rest _ 0);
      [reflexivity | reflexivity | apply NL_no_lt |].
    intros x r. exact (proj1 (pill_one_pill (fst x) (snd x) r)).
  - rewrite (count_join PILL_OPEN NL rest _ 1);
      [rewrite length_enumerate; lia | reflexivity | apply NL_no_lt |].
    intros x r. exact (proj2 (pill_one_pill (fst x) (snd x) r)).
Qed.

Lemma NLNL_no_lt (c : N) : In c (NL ++ NL) -> c <> ch "<".
Proof. intros [<-|[<-|[]]]; discriminate. Qed.

Lemma sections_counts (currency : pystr) (flag : bool) (menu : list Cat.t)
    (rest : pystr) :
  count SECTION_OPEN (join (NL ++ NL) (sections_html currency flag menu) ++ rest)
  = (List.length menu + count SECTION_OPEN rest)%nat
  /\ count PILL_OPEN (join (NL ++ NL) (sections_html currency flag menu) ++ rest)
     = count PILL_OPEN rest.
Proof.
  unfold sections_html. split.
  - rewrite (count_join SECTION_OPEN (NL ++ NL) rest _ 1);
      [rewrite length_enumerate; lia | reflexivity | apply NLNL_no_lt |].
    intros x r. exact (proj1 (section_one_section currency flag (fst x) (snd x) r)).
  - rewrite (count_join PILL_OPEN (NL ++ NL) rest _ 0);
      [reflexivity | reflexivity | apply NLNL_no_lt |].
    intros x r. exact (proj2 (section_one_section currency flag (fst x) (snd x) r)).
Qed.

(** One step over a part of the page that holds markup of its own. *)
Ltac count_step P :=
  fold_pat P;
  first
    [ rewrite (proj1 (link_no_section _ _ _))
    | rewrite (proj2 (link_no_section _ _ _))
    | rewrite (proj1 (pills_counts _ _))
    | rewrite (proj2 (pills_counts _ _))
    | rewrite (proj1 (sections_counts _ _ _ _))
    | rewrite (proj2 (sections_counts _ _ _ _)) ];
  read_pat P; count_through_text.

(** X16. Whatever the texts of the fields, the page holds exactly one
    section element and exactly one quick-navigation pill per category of
    the menu, and none when the menu is empty. *)
Theorem page_sections_and_pills (data : Data.t) (page_title : pystr) (flag : bool)
    (generated_at : pystr) :
  let page_text := render_html data page_title flag generated_at in
  let menu := get (Data.menu data) [] in
  count SECTION_OPEN page_text = List.length menu
  /\ count PILL_OPEN page_text = List.length menu.
Proof.
  intros page_text menu. subst page_text. unfold render_html. fold menu.
  unfold page, fstr. cbn [flat_map part_text].
  set (address := escape (norm_text (get (Cafe.address _) _))).
  set (badge := if truthy address then escape address else NO_ADDRESS).
  assert (Hbadge : forall c, In c badge -> c <> ch "<").
  { unfold badge. destruct (truthy address); [apply escape_no_lt|].
    intros c H E. subst c. vm_compute in H.
    repeat (destruct H as [H|H]; [discriminate|]). exact H. }
  clearbody badge.
  destruct (truthy (escape (norm_text (get (Cafe.phone _) _))));
    unfold phone_row, fstr; cbn [flat_map part_text];
    rewrite ?app_nil_r, <- ?app_assoc;
    try (let v := eval vm_compute in NO_PHONE_ROW in change NO_PHONE_ROW with v);
    read_literals; split.
  all: [> read_pat SECTION_OPEN | read_pat PILL_OPEN
        | read_pat SECTION_OPEN | read_pat PILL_OPEN ].
  all: count_through_text.
  all: [> do 6 count_step SECTION_OPEN | do 6 count_step PILL_OPEN
        | do 6 count_step SECTION_OPEN | do 6 count_step PILL_OPEN ].
  all: fold menu; lia.
Qed.
